(** * kubernetes-network-drivers: host device, node agent and slice controller

    A shallow embedding of the Go sources

    - [drivers/hostdevice/main.go]  (the host-device driver and, in the same
      file, the node-agent driver),
    - [pkg/net/subinterfaces.go]    (macvlan / ipvlan creation),
    - [pkg/driver/driver.go]        (the [Driver] interface and shared state),
    - [drivers/subinterface/controlller/main.go] (the sample reconciler),

    together with a model of the environment they call into: the kernel's
    network namespaces as seen through [vishvananda/netlink] and
    [vishvananda/netns], one file of the node's file system, and the
    ResourceSlice store of the cluster API.

    Go functions that touch the environment are functions in the monad [M]
    (state of the node plus a log of the system operations issued); a Go
    [error] is its message.  [klog] output is not part of the state. *)

From Stdlib Require Import ZArith String Ascii List Lia Bool.
From stdpp Require Import base tactics option gmap strings list fin_maps.

Open Scope Z_scope.
Open Scope string_scope.

(** ** Go values *)

(** [strings.HasPrefix(s, prefix)]. *)
Definition HasPrefix (s pre : string) : bool := String.prefix pre s.

(** [strings.Contains(s, substr)]: used to say that a message names
    something. *)
Definition Contains (s sub : string) : bool :=
  match String.index 0 sub s with Some _ => true | None => false end.

(** A Go call returning [(T, error)]; [error] alone is [result unit]. *)
Inductive result (A : Type) : Type :=
| Ok (a : A)
| Err (msg : string).
Arguments Ok {A} a.
Arguments Err {A} msg.

Definition is_ok {A} (r : result A) : bool :=
  match r with Ok _ => true | Err _ => false end.

(** ** netlink: links and the kernel behind them *)

Module netlink.

(** [net.Flags] bits. *)
Definition FlagUp : Z := 1.
Definition FlagBroadcast : Z := 2.
Definition FlagLoopback : Z := 4.
Definition FlagPointToPoint : Z := 8.
Definition FlagMulticast : Z := 16.
Definition FlagRunning : Z := 32.

Inductive MacvlanMode :=
| MACVLAN_MODE_DEFAULT | MACVLAN_MODE_PRIVATE | MACVLAN_MODE_VEPA
| MACVLAN_MODE_BRIDGE | MACVLAN_MODE_PASSTHRU | MACVLAN_MODE_SOURCE.

Inductive IPVlanMode := IPVLAN_MODE_L2 | IPVLAN_MODE_L3 | IPVLAN_MODE_L3S.

(** The dynamic type of a [netlink.Link]. *)
Inductive LinkType :=
| Device
| Veth
| Macvlan (mode : MacvlanMode)
| IPVlan (mode : IPVlanMode).

#[global] Instance MacvlanMode_eq_dec : EqDecision MacvlanMode.
Proof. solve_decision. Defined.
#[global] Instance IPVlanMode_eq_dec : EqDecision IPVlanMode.
Proof. solve_decision. Defined.
#[global] Instance LinkType_eq_dec : EqDecision LinkType.
Proof. solve_decision. Defined.

(** [netlink.LinkAttrs], the fields the sources read or set, and
    [Namespace] (nil, or the handle of the namespace in which a new link is
    to be created), which they leave unset. *)
Record LinkAttrs := {
  Index : Z;
  Name : string;
  Flags : Z;
  HardwareAddr : list Z;
  ParentIndex : Z;
  Namespace : option Z;
  NetNsID : Z;
}.

Record Link := { Attrs : LinkAttrs; Type_ : LinkType }.

(** [net.HardwareAddr.String]: lower-case hex bytes separated by colons. *)
Definition hexDigit (n : Z) : ascii :=
  match String.get (Z.to_nat n) "0123456789abcdef" with
  | Some c => c
  | None => "?"%char
  end.

Definition hexByte (b : Z) : string :=
  String (hexDigit (Z.shiftr b 4)) (String (hexDigit (Z.land b 15)) EmptyString).

Fixpoint HardwareAddr_String (a : list Z) : string :=
  match a with
  | [] => EmptyString
  | [b] => hexByte b
  | b :: rest => hexByte b +:+ ":" +:+ HardwareAddr_String rest
  end.

(** *** The kernel side

    A network device as the kernel keeps it; its name is the key under which
    its namespace stores it (names are unique within a namespace). *)
Record netdev := {
  ifindex : Z;
  ifflags : Z;
  hwaddr : list Z;
  iflink : Z;          (* index of the lower (parent) device, 0 if none *)
  kind : LinkType;
}.

#[global] Instance netdev_eq_dec : EqDecision netdev.
Proof. solve_decision. Defined.

(** The network state of a node: the host namespace, the other namespaces by
    identifier, and the paths under which namespaces are reachable.
    [rtnl_ok] is false when the netlink socket cannot be used at all. *)
Record Kernel := {
  host : gmap string netdev;
  netns : gmap Z (gmap string netdev);
  nspath : gmap string Z;
  rtnl_ok : bool;
}.

Definition set_host (h : gmap string netdev) (k : Kernel) : Kernel :=
  {| host := h; netns := netns k; nspath := nspath k; rtnl_ok := rtnl_ok k |}.

Definition set_netns (n : gmap Z (gmap string netdev)) (k : Kernel) : Kernel :=
  {| host := host k; netns := n; nspath := nspath k; rtnl_ok := rtnl_ok k |}.

(** What the library hands back for a device found under [name]. *)
Definition link_of (name : string) (d : netdev) : Link :=
  {| Attrs := {| Index := ifindex d; Name := name; Flags := ifflags d;
                 HardwareAddr := hwaddr d; ParentIndex := iflink d;
                 Namespace := None; NetNsID := -1 |};
     Type_ := kind d |}.

(** Errors of the kernel, as Go prints them. *)
Definition EPERM : string := "operation not permitted".
Definition ENOENT : string := "no such file or directory".
Definition EEXIST : string := "file exists".
Definition EBUSY : string := "device or resource busy".
Definition ENODEV : string := "no such device".
Definition EINVAL : string := "invalid argument".
Definition LinkNotFound : string := "Link not found".
Definition ERANGE : string := "numerical result out of range".
Definition EIO : string := "input/output error".

(** An interface name has at most 15 characters. *)
Definition IFNAMSIZ : nat := 16.

(** A macvlan and an ipvlan cannot share a lower device: each kind claims the
    lower device's receive handler. [d] is a slave of the device with index
    [parent] whose kind is the other one than [k]. *)
Definition conflicting (k : LinkType) (parent : Z) (d : netdev) : bool :=
  bool_decide (iflink d = parent) &&
  match k, kind d with
  | Macvlan _, IPVlan _ => true
  | IPVlan _, Macvlan _ => true
  | _, _ => false
  end.

Definition has_conflict (k : LinkType) (parent : Z) (K : Kernel) : bool :=
  bool_decide (map_Exists (fun _ d => conflicting k parent d = true) (host K)) ||
  bool_decide (map_Exists (fun _ ns =>
                 map_Exists (fun _ d => conflicting k parent d = true) ns) (netns K)).

Definition has_index (i : Z) (ns : gmap string netdev) : bool :=
  bool_decide (map_Exists (fun _ d => ifindex d = i) ns).

Definition next_index (ns : gmap string netdev) : Z :=
  1 + map_fold (fun _ d acc => Z.max (ifindex d) acc) 0 ns.

End netlink.

(** ** API types *)

(** A Go [interface{}] value, by dynamic type. *)
Inductive any :=
| AnyNil
| AnyString (s : string)
| AnyInt (n : Z)
| AnyBool (b : bool)
| AnyBytes (b : list Z)
| AnyStrings (l : list string).

(** What [%T] prints. *)
Definition typeName (v : any) : string :=
  match v with
  | AnyNil => "<nil>"
  | AnyString _ => "string"
  | AnyInt _ => "int"
  | AnyBool _ => "bool"
  | AnyBytes _ => "[]uint8"
  | AnyStrings _ => "[]string"
  end.

Definition is_string (v : any) : bool :=
  match v with AnyString _ => true | _ => false end.

Module metav1.
Record ObjectMeta := { Name : string; Namespace : string; UID : string }.
End metav1.

Module resourceapi.

Record DeviceAttribute := {
  IntValue : option Z;
  BoolValue : option bool;
  StringValue : option string;
  VersionValue : option string;
}.

Definition stringAttribute (s : string) : DeviceAttribute :=
  {| IntValue := None; BoolValue := None; StringValue := Some s; VersionValue := None |}.

Record Device := {
  Name : string;
  Attributes : gmap string DeviceAttribute;
}.

Record DeviceRequestAllocationResult := {
  Request : string;
  Driver : string;
  Pool : string;
  Device_ : string;               (* the field [Device] *)
}.

Record DeviceAllocationResult := { Results : list DeviceRequestAllocationResult }.
Record AllocationResult := { Devices : DeviceAllocationResult }.
Record ResourceClaimStatus := { Allocation : option AllocationResult }.
Record ResourceClaim := { Meta : metav1.ObjectMeta; Status : ResourceClaimStatus }.

End resourceapi.

Module kubeletplugin.
Record NamespacedObject := { Namespace : string; Name : string; UID : string }.
End kubeletplugin.

Module nri.
Record PodSandbox := { Name : string; Namespace : string; Uid : string }.
End nri.

(** ** pkg/driver *)

Module driver.

(** [AllocatedDevice] (driver.go). *)
Record AllocatedDevice := {
  Name : string;
  Attributes : gmap string string;
  PoolName : string;
  Request : string;
}.

(** [SharedState] (driver.go): per pod UID, the devices allocated and what
    [PrepareDevice] returned. *)
Record SharedState := {
  PodDeviceConfig : gmap string (list AllocatedDevice);
  PreparedData : gmap string any;
}.

End driver.

(** ** The node: kernel, one file system, and the operations issued *)

Import netlink.

(** The system operations the sources can issue, in the order issued. *)
Inductive Syscall :=
| NetnsOpen (path : string)
| RtnlGetLinks
| RtnlGetLink (name : string)
| RtnlNewLink (name : string) (k : LinkType) (parent : Z) (ns : Z)
| RtnlSetNs (name : string) (ns : Z) (newname : string)
| RtnlSetHost (ns : Z) (name : string) (newname : string)
| RtnlDelLink (ns : Z) (name : string)
| FsStat (path : string)
| FsWrite (path : string) (data : string).

Definition is_namespace_op (s : Syscall) : bool :=
  match s with
  | FsStat _ | FsWrite _ _ => false
  | _ => true
  end.

Definition is_file_op (s : Syscall) : bool :=
  match s with
  | FsStat _ | FsWrite _ _ => true
  | _ => false
  end.

Record World := {
  kernel : Kernel;
  files : gmap string string;
  readonly : bool;             (* the file system refuses writes *)
  stat_eio : bool;             (* the file system answers stat with an I/O error *)
  shared : driver.SharedState; (* the plugin's table; no driver method gets it *)
  trace : list Syscall;
}.

Definition log (s : Syscall) (w : World) : World :=
  {| kernel := kernel w; files := files w; readonly := readonly w;
     stat_eio := stat_eio w; shared := shared w; trace := trace w ++ [s] |}.

Definition set_kernel (k : Kernel) (w : World) : World :=
  {| kernel := k; files := files w; readonly := readonly w; stat_eio := stat_eio w;
     shared := shared w; trace := trace w |}.

Definition set_files (f : gmap string string) (w : World) : World :=
  {| kernel := kernel w; files := f; readonly := readonly w; stat_eio := stat_eio w;
     shared := shared w; trace := trace w |}.

(** Computations on the node. *)
Definition M (A : Type) : Type := World -> World * result A.

Definition ret {A} (a : A) : M A := fun w => (w, Ok a).
Definition fail {A} (msg : string) : M A := fun w => (w, Err msg).

(** [x, err := c; if err != nil { return wrap(err) }; k x]. *)
Definition bind_wrap {A B} (c : M A) (wrap : string -> string) (k : A -> M B) : M B :=
  fun w =>
    match c w with
    | (w', Ok a) => k a w'
    | (w', Err e) => (w', Err (wrap e))
    end.

Notation "'call' x ':=' c 'onerr' f 'in' k" :=
  (bind_wrap c f (fun x => k))
  (at level 10, x name, c at level 100, f at level 100, k at level 200,
   format "'[v' 'call'  x  ':='  c  'onerr'  f  'in' '/' k ']'").

(** The number of operations of a class in a run from [w] to [w']. *)
Definition issued (p : Syscall -> bool) (w w' : World) : nat :=
  (length (filter (fun s => p s = true) (trace w')) -
   length (filter (fun s => p s = true) (trace w)))%nat.

(** *** Environment: netns and netlink calls *)

Module netns.

(** [netns.GetFromPath]: a handle on the namespace bound at [path]. *)
Definition GetFromPath (path : string) : M Z := fun w =>
  let w' := log (NetnsOpen path) w in
  match nspath (kernel w) !! path with
  | Some ns => (w', Ok ns)
  | None => (w', Err ENOENT)
  end.

End netns.

(** [netlink.LinkList]: the devices of the host namespace. *)
Definition LinkList : M (list Link) := fun w =>
  let w' := log RtnlGetLinks w in
  if rtnl_ok (kernel w)
  then (w', Ok (map (fun p => link_of (fst p) (snd p)) (map_to_list (host (kernel w)))))
  else (w', Err EPERM).

(** [netlink.LinkByName], in the host namespace. *)
Definition LinkByName (name : string) : M Link := fun w =>
  let w' := log (RtnlGetLink name) w in
  if rtnl_ok (kernel w)
  then match host (kernel w) !! name with
       | Some d => (w', Ok (link_of name d))
       | None => (w', Err LinkNotFound)
       end
  else (w', Err EPERM).

Definition is_subinterface (k : LinkType) : bool :=
  match k with Macvlan _ | IPVlan _ => true | _ => false end.

(** [netlink.LinkAdd] of a macvlan or ipvlan. The request carries the name,
    the kind and the index of the lower device; the new device is created in
    the namespace that [Namespace] names, and in the caller's namespace, the
    host, when that field is nil. [NetNsID] is a field the library fills in
    when it reads a link; it is sent along as given and does not place the
    new device. A name of more than 15 characters is refused before anything
    else is looked at; a lower device that already backs a slave of the other
    kind is busy. Nothing is created unless every check passes. *)
Definition LinkAdd (l : Link) : M unit := fun w =>
  let K := kernel w in
  let a := Attrs l in
  let w' := log (RtnlNewLink (Name a) (Type_ l) (ParentIndex a) (NetNsID a)) w in
  if negb (rtnl_ok K) then (w', Err EPERM)
  else if (IFNAMSIZ <=? String.length (Name a))%nat then (w', Err ERANGE)
  else if negb (is_subinterface (Type_ l)) then (w', Err EINVAL)
  else if negb (has_index (ParentIndex a) (host K)) then (w', Err ENODEV)
  else if has_conflict (Type_ l) (ParentIndex a) K then (w', Err EBUSY)
  else match Namespace a with
       | None =>
           match host K !! Name a with
           | Some _ => (w', Err EEXIST)
           | None =>
               let d := {| ifindex := next_index (host K); ifflags := Flags a;
                           hwaddr := HardwareAddr a;
                           iflink := ParentIndex a; kind := Type_ l |} in
               (set_kernel (set_host (<[Name a := d]> (host K)) K) w', Ok tt)
           end
       | Some fd =>
           match netns K !! fd with
           | None => (w', Err EINVAL)
           | Some ns =>
               match ns !! Name a with
               | Some _ => (w', Err EEXIST)
               | None =>
                   let d := {| ifindex := next_index ns; ifflags := Flags a;
                               hwaddr := HardwareAddr a;
                               iflink := ParentIndex a; kind := Type_ l |} in
                   (set_kernel (set_netns (<[fd := <[Name a := d]> ns]> (netns K)) K) w',
                    Ok tt)
               end
           end
       end.

(** Moving the host device [name] into namespace [ns] under [newname]. *)
Definition LinkSetNs (name : string) (ns : Z) (newname : string) : M unit := fun w =>
  let K := kernel w in
  let w' := log (RtnlSetNs name ns newname) w in
  if negb (rtnl_ok K) then (w', Err EPERM)
  else match host K !! name, netns K !! ns with
       | None, _ => (w', Err LinkNotFound)
       | Some _, None => (w', Err EINVAL)
       | Some d, Some inv =>
           match inv !! newname with
           | Some _ => (w', Err EEXIST)
           | None =>
               (set_kernel
                  (set_netns (<[ns := <[newname := d]> inv]> (netns K))
                     (set_host (delete name (host K)) K)) w',
                Ok tt)
           end
       end.

(** Moving the device [name] of namespace [ns] to the host under [newname]. *)
Definition LinkSetHost (ns : Z) (name newname : string) : M unit := fun w =>
  let K := kernel w in
  let w' := log (RtnlSetHost ns name newname) w in
  if negb (rtnl_ok K) then (w', Err EPERM)
  else match netns K !! ns with
       | None => (w', Err EINVAL)
       | Some inv =>
           match inv !! name, host K !! newname with
           | None, _ => (w', Err LinkNotFound)
           | Some _, Some _ => (w', Err EEXIST)
           | Some d, None =>
               (set_kernel
                  (set_netns (<[ns := delete name inv]> (netns K))
                     (set_host (<[newname := d]> (host K)) K)) w',
                Ok tt)
           end
       end.

(** [netlink.LinkDel] of the device [name] of namespace [ns]. *)
Definition LinkDel (ns : Z) (name : string) : M unit := fun w =>
  let K := kernel w in
  let w' := log (RtnlDelLink ns name) w in
  if negb (rtnl_ok K) then (w', Err EPERM)
  else match netns K !! ns with
       | None => (w', Err EINVAL)
       | Some inv =>
           match inv !! name with
           | None => (w', Err LinkNotFound)
           | Some _ =>
               (set_kernel (set_netns (<[ns := delete name inv]> (netns K)) K) w',
                Ok tt)
           end
       end.

(** *** Environment: the file system *)

Definition EROFS : string := "read-only file system".

(** [os.WriteFile(name, data, perm)]. *)
Definition WriteFile (name data : string) : M unit := fun w =>
  let w' := log (FsWrite name data) w in
  if readonly w then (w', Err ("open " +:+ name +:+ ": " +:+ EROFS))
  else (set_files (<[name := data]> (files w)) w', Ok tt).

(** [*fs.PathError]. *)
Record PathError := { Op : string; Path : string; Errno : string }.

(** [os.IsNotExist]. *)
Definition IsNotExist (err : option PathError) : bool :=
  match err with
  | Some e => String.eqb (Errno e) ENOENT
  | None => false
  end.

(** [os.Stat(name)], reduced to its error: an I/O error if the file system
    answers with one; otherwise nil if the file exists and no-such-file if it
    does not. *)
Definition Stat (name : string) (w : World) : World * option PathError :=
  let w' := log (FsStat name) w in
  if stat_eio w then (w', Some {| Op := "stat"; Path := name; Errno := EIO |})
  else match files w !! name with
       | Some _ => (w', None)
       | None => (w', Some {| Op := "stat"; Path := name; Errno := ENOENT |})
       end.

(** ** pkg/driver: the interface *)

(** The [Driver] interface (driver.go). [HandleError] only logs and the
    contexts only carry cancellation; both are left out. *)
Class Driver (D : Type) := {
  GetDevices : D -> M (list resourceapi.Device);
  PrepareDevice : D -> resourceapi.ResourceClaim -> M any;
  UnprepareDevice : D -> kubeletplugin.NamespacedObject -> M unit;
  ConfigureDeviceForPod :
    D -> driver.AllocatedDevice -> string -> nri.PodSandbox -> any -> M unit;
  CleanupDeviceForPod :
    D -> driver.AllocatedDevice -> string -> nri.PodSandbox -> any -> M unit;
}.

(** ** pkg/net *)

Module kndnet.

(** The [netlink.LinkAttrs] literal the sources build: unset fields are zero. *)
Definition attrs_named (name : string) (parent nsid : Z) : LinkAttrs :=
  {| Index := 0; Name := name; Flags := 0; HardwareAddr := [];
     ParentIndex := parent; Namespace := None; NetNsID := nsid |}.

(** [addMacVlan] (subinterfaces.go). The deferred [containerNs.Close()]
    releases the handle and has no effect on the network state. *)
Definition addMacVlan (containerNsPAth devName : string) (mode : MacvlanMode) : M unit :=
  call containerNs := netns.GetFromPath containerNsPAth
    onerr (fun err => "could not get network namespace from path " +:+ containerNsPAth
                      +:+ " for network device " +:+ devName +:+ " : " +:+ err) in
  call parentLink := LinkByName devName
    onerr (fun err => "could not find parent interface " +:+ devName +:+ " : " +:+ err) in
  let macvlan :=
    {| Attrs := attrs_named ("mavlan-" +:+ devName) (Index (Attrs parentLink)) containerNs;
       Type_ := Macvlan mode |} in
  call _ := LinkAdd macvlan
    onerr (fun err => "failed to create the " +:+ Name (Attrs macvlan)
                      +:+ " macvlan interface: " +:+ err) in
  ret tt.

(** [addIPVlan] (subinterfaces.go). *)
Definition addIPVlan (containerNsPAth devName : string) (mode : IPVlanMode) : M unit :=
  call containerNs := netns.GetFromPath containerNsPAth
    onerr (fun err => "could not get network namespace from path " +:+ containerNsPAth
                      +:+ " for network device " +:+ devName +:+ " : " +:+ err) in
  call parentLink := LinkByName devName
    onerr (fun err => "could not find parent interface " +:+ devName +:+ " : " +:+ err) in
  let ipvlan :=
    {| Attrs := attrs_named ("ipvaln-" +:+ devName) (Index (Attrs parentLink)) containerNs;
       Type_ := IPVlan mode |} in
  call _ := LinkAdd ipvlan
    onerr (fun err => "failed to create the " +:+ Name (Attrs ipvlan)
                      +:+ " ipvlan interface: " +:+ err) in
  ret tt.

(** Modelled from the spec: [NsAttachNetdev], which the host-device driver
    calls and whose file is not among the sources. Section 4.4, mode
    [direct]: it reparents the actual host link into the target namespace and
    renames it, which removes the interface from the host until moved back.
    The driver passes [nil] for the fourth argument and drops the first
    result; both are left out. *)
Definition NsAttachNetdev (hostIfName containerNsPAth : string)
    (interfaceConfig : LinkAttrs) : M unit :=
  call containerNs := netns.GetFromPath containerNsPAth
    onerr (fun err => "could not get network namespace from path " +:+ containerNsPAth
                      +:+ " for network device " +:+ hostIfName +:+ " : " +:+ err) in
  call _ := LinkSetNs hostIfName containerNs (Name interfaceConfig)
    onerr (fun err => "failed to move " +:+ hostIfName +:+ " to " +:+ containerNsPAth
                      +:+ " : " +:+ err) in
  ret tt.

(** Modelled from the spec: [NsDetachNetdev], likewise absent. Section 4.4:
    MoveOut reparents the link back to the host namespace under its original
    name; if the target namespace no longer exists it cannot run and is
    treated as already successful. *)
Definition NsDetachNetdev (containerNsPAth devName outName : string) : M unit :=
  fun w =>
    match netns.GetFromPath containerNsPAth w with
    | (w', Err _) => (w', Ok tt)
    | (w', Ok containerNs) =>
        match LinkSetHost containerNs devName outName w' with
        | (w'', Err err) =>
            (w'', Err ("failed to move " +:+ devName +:+ " back to the host : " +:+ err))
        | (w'', Ok _) => (w'', Ok tt)
        end
    end.

(** Modelled from the spec: the MoveOut of a sub-interface, absent from the
    sources. Section 4.4: MoveOut deletes the slave link; a vanished
    namespace counts as success. *)
Definition delSubinterface (containerNsPAth devName : string) : M unit :=
  fun w =>
    match netns.GetFromPath containerNsPAth w with
    | (w', Err _) => (w', Ok tt)
    | (w', Ok containerNs) =>
        match LinkDel containerNs devName w' with
        | (w'', Err err) =>
            (w'', Err ("failed to delete " +:+ devName +:+ " : " +:+ err))
        | (w'', Ok _) => (w'', Ok tt)
        end
    end.

(** Modelled from the spec: the modes of the NamespaceMover of section 4.4,
    whose code is not among the sources: direct, macvlan, ipvlan. The two
    sub-interface modes carry the mode that [addMacVlan] and [addIPVlan]
    take. *)
Inductive Mode :=
| direct
| macvlan (m : MacvlanMode)
| ipvlan (m : IPVlanMode).

(** Modelled from the spec: [MoveIn] of section 4.4, absent from the sources,
    over the functions above. [addMacVlan] and [addIPVlan] fix the name of
    the slave themselves, so [desiredName] only matters to a direct move. *)
Definition MoveIn (hostInterfaceName targetNamespace desiredName : string)
    (mode : Mode) : M unit :=
  match mode with
  | direct => NsAttachNetdev hostInterfaceName targetNamespace (attrs_named desiredName 0 0)
  | macvlan m => addMacVlan targetNamespace hostInterfaceName m
  | ipvlan m => addIPVlan targetNamespace hostInterfaceName m
  end.

(** The name of the interface that [MoveIn] moves, or of the slave it asks
    for; [MoveOut] is given it as [currentName]. *)
Definition movedName (hostInterfaceName desiredName : string) (mode : Mode) : string :=
  match mode with
  | direct => desiredName
  | macvlan _ => "mavlan-" +:+ hostInterfaceName
  | ipvlan _ => "ipvaln-" +:+ hostInterfaceName
  end.

(** Modelled from the spec: [MoveOut] of section 4.4, absent from the
    sources. It deletes the slave link (sub-interface modes) or reparents the
    link back to the host (direct mode); the spec's signature has no mode and
    tells the two apart by the mode of the move being undone, given here. *)
Definition MoveOut (targetNamespace currentName hostName : string)
    (mode : Mode) : M unit :=
  match mode with
  | direct => NsDetachNetdev targetNamespace currentName hostName
  | _ => delSubinterface targetNamespace currentName
  end.

End kndnet.

(** ** drivers/hostdevice *)

Module hostdevice.

(** [hostdeviceDriver] is an empty struct. *)
Inductive hostdeviceDriver := NewDriver.

Definition device (attrs : LinkAttrs) : resourceapi.Device :=
  {| resourceapi.Name := Name attrs;
     resourceapi.Attributes :=
       <["interface-name" := resourceapi.stringAttribute (Name attrs)]>
       (<["mac-address" :=
            resourceapi.stringAttribute (HardwareAddr_String (HardwareAddr attrs))]> ∅) |}.

(** The loop of [GetDevices]: [devices] is the slice appended to. *)
Fixpoint discover (links : list Link) (devices : list resourceapi.Device)
  : list resourceapi.Device :=
  match links with
  | [] => devices
  | link :: rest =>
      let attrs := Attrs link in
      if negb (Z.land (Flags attrs) FlagLoopback =? 0)%Z
         || (Z.land (Flags attrs) FlagUp =? 0)%Z
      then discover rest devices
      else if HasPrefix (Name attrs) "veth" || HasPrefix (Name attrs) "docker"
              || HasPrefix (Name attrs) "cni"
      then discover rest devices
      else discover rest (devices ++ [device attrs])
  end.

Definition GetDevices (d : hostdeviceDriver) : M (list resourceapi.Device) :=
  call links := LinkList
    onerr (fun err => "failed to list network interfaces: " +:+ err) in
  ret (discover links []).

(** [claim.Status.Allocation == nil || len(...Results) == 0]. *)
Definition noAllocatedDevices (claim : resourceapi.ResourceClaim) : bool :=
  match resourceapi.Allocation (resourceapi.Status claim) with
  | None => true
  | Some a => (length (resourceapi.Results (resourceapi.Devices a)) =? 0)%nat
  end.

(** [PrepareDevice]: the name of the first allocated device. Past the guard
    [Results[0]] exists; the branches that the guard excludes repeat its
    error. *)
Definition PrepareDevice (d : hostdeviceDriver) (claim : resourceapi.ResourceClaim)
  : M any :=
  let noDevices : M any :=
    fail ("claim " +:+ metav1.Name (resourceapi.Meta claim) +:+ " has no allocated devices") in
  if noAllocatedDevices claim then noDevices
  else match resourceapi.Allocation (resourceapi.Status claim) with
       | Some a =>
           match resourceapi.Results (resourceapi.Devices a) with
           | r :: _ => ret (AnyString (resourceapi.Device_ r))
           | [] => noDevices
           end
       | None => noDevices
       end.

(** [UnprepareDevice] is a no-op. *)
Definition UnprepareDevice (d : hostdeviceDriver) (claim : kubeletplugin.NamespacedObject)
  : M unit :=
  ret tt.

Definition invalidPreparedData (preparedData : any) : string :=
  "invalid prepared data type: expected string, got " +:+ typeName preparedData.

(** [ConfigureDeviceForPod]: the type assertion [preparedData.(string)], then
    the move under the same name. *)
Definition ConfigureDeviceForPod (d : hostdeviceDriver) (device : driver.AllocatedDevice)
    (networkNamespace : string) (podSandbox : nri.PodSandbox) (preparedData : any)
  : M unit :=
  match preparedData with
  | AnyString hostDeviceName =>
      let podInterfaceName := hostDeviceName in
      kndnet.NsAttachNetdev hostDeviceName networkNamespace
        (kndnet.attrs_named podInterfaceName 0 0)
  | _ => fail (invalidPreparedData preparedData)
  end.

(** [CleanupDeviceForPod]. *)
Definition CleanupDeviceForPod (d : hostdeviceDriver) (device : driver.AllocatedDevice)
    (networkNamespace : string) (podSandbox : nri.PodSandbox) (preparedData : any)
  : M unit :=
  match preparedData with
  | AnyString hostDeviceName =>
      let podInterfaceName := hostDeviceName in
      kndnet.NsDetachNetdev networkNamespace podInterfaceName hostDeviceName
  | _ => fail (invalidPreparedData preparedData)
  end.

End hostdevice.

#[global] Instance hostdeviceDriver_Driver : Driver hostdevice.hostdeviceDriver := {|
  GetDevices := hostdevice.GetDevices;
  PrepareDevice := hostdevice.PrepareDevice;
  UnprepareDevice := hostdevice.UnprepareDevice;
  ConfigureDeviceForPod := hostdevice.ConfigureDeviceForPod;
  CleanupDeviceForPod := hostdevice.CleanupDeviceForPod;
|}.


(** ** The node agent (second program of drivers/hostdevice/main.go) *)

Module nodeagent.

Definition resourceFile : string := "/tmp/special-node-resource".

Inductive nodeAgentDriver := NewDriver.

Definition specialResource : resourceapi.Device :=
  {| resourceapi.Name := "special-resource-0";
     resourceapi.Attributes := <["feature" := resourceapi.stringAttribute "enabled"]> ∅ |}.

(** [GetDevices]: no device if [os.Stat] fails with not-exist; the device
    in every other case, the other failures of [os.Stat] included. *)
Definition GetDevices (d : nodeAgentDriver) : M (list resourceapi.Device) :=
  fun w =>
    let '(w', err) := Stat resourceFile w in
    if IsNotExist err then (w', Ok [])
    else (w', Ok [specialResource]).

(** [PrepareDevice]: write the UID to the file, on every call. *)
Definition PrepareDevice (d : nodeAgentDriver) (claim : resourceapi.ResourceClaim)
  : M any :=
  let podUID := metav1.UID (resourceapi.Meta claim) in
  call _ := WriteFile resourceFile podUID
    onerr (fun err => "failed to write pod UID to resource file: " +:+ err) in
  ret (AnyString podUID).

(** [UnprepareDevice]: clear the file. *)
Definition UnprepareDevice (d : nodeAgentDriver) (claim : kubeletplugin.NamespacedObject)
  : M unit :=
  WriteFile resourceFile EmptyString.

Definition ConfigureDeviceForPod (d : nodeAgentDriver) (device : driver.AllocatedDevice)
    (networkNamespace : string) (podSandbox : nri.PodSandbox) (preparedData : any)
  : M unit :=
  ret tt.

Definition CleanupDeviceForPod (d : nodeAgentDriver) (device : driver.AllocatedDevice)
    (networkNamespace : string) (podSandbox : nri.PodSandbox) (preparedData : any)
  : M unit :=
  ret tt.

End nodeagent.

#[global] Instance nodeAgentDriver_Driver : Driver nodeagent.nodeAgentDriver := {|
  GetDevices := nodeagent.GetDevices;
  PrepareDevice := nodeagent.PrepareDevice;
  UnprepareDevice := nodeagent.UnprepareDevice;
  ConfigureDeviceForPod := nodeagent.ConfigureDeviceForPod;
  CleanupDeviceForPod := nodeagent.CleanupDeviceForPod;
|}.


(** ** The plugin's table of prepared state *)

Module plugin.

(** Modelled from the spec: the removal of the PreparedState of a workload,
    section 3: the entries under its UID in the tables of [SharedState]. The
    plugin of pkg/driver, which owns the tables, is not among the sources. *)
Definition forget (uid : string) (w : World) : World :=
  {| kernel := kernel w; files := files w; readonly := readonly w;
     stat_eio := stat_eio w;
     shared := {| driver.PodDeviceConfig := delete uid (driver.PodDeviceConfig (shared w));
                  driver.PreparedData := delete uid (driver.PreparedData (shared w)) |};
     trace := trace w |}.

(** Modelled from the spec: [UnprepareDevice] of the AllocationCoordinator,
    section 4.2, absent from the sources like the rest of the plugin. If no
    PreparedState exists for the UID it returns success; otherwise the
    driver's method is called, as driver.go says the framework does, and on
    success the PreparedState entry is removed. *)
Definition UnprepareDevice {D : Type} `{Driver D} (drv : D)
    (claim : kubeletplugin.NamespacedObject) : M unit :=
  fun w =>
    match driver.PreparedData (shared w) !! kubeletplugin.UID claim with
    | None => (w, Ok tt)
    | Some _ =>
        match UnprepareDevice drv claim w with
        | (w', Ok _) => (forget (kubeletplugin.UID claim) w', Ok tt)
        | (w', Err err) => (w', Err err)
        end
    end.

End plugin.

(** ** The sandbox hook dispatcher *)

Module dispatcher.

Section configuring.
Context {D : Type} `{Driver D} (drv : D).
Variables (networkNamespace : string) (podSandbox : nri.PodSandbox) (preparedData : any).

(** Modelled from the spec: the rollback of section 4.3, absent from the
    sources (the plugin of pkg/driver that runs the hooks). All devices
    already moved for this workload are moved back out, the latest first;
    the failure reported upward is the one of the move. *)
Fixpoint rollback (moved : list driver.AllocatedDevice) (w : World) : World :=
  match moved with
  | [] => w
  | device :: rest =>
      rollback rest
        (fst (CleanupDeviceForPod drv device networkNamespace podSandbox
                preparedData w))
  end.

(** Modelled from the spec: the transition Configuring to Configured of
    section 4.3, absent from the sources. MoveIn has to succeed for every
    allocated device of the workload; if any move fails the devices in
    [moved] are rolled back before the failure is reported. *)
Fixpoint configuring (devices moved : list driver.AllocatedDevice) : M unit :=
  fun w =>
    match devices with
    | [] => (w, Ok tt)
    | device :: rest =>
        match ConfigureDeviceForPod drv device networkNamespace podSandbox
                preparedData w with
        | (w', Ok _) => configuring rest (device :: moved) w'
        | (w', Err err) => (rollback moved w', Err err)
        end
    end.

(** Rolling back [moved] from any world whose kernel is [K] ends in [K0]. *)
Definition rolls_back (moved : list driver.AllocatedDevice) (K K0 : Kernel) : Prop :=
  forall w, kernel w = K -> kernel (rollback moved w) = K0.

End configuring.

End dispatcher.

(** ** drivers/subinterface/controlller *)

Module controller.

Definition controllerName : string := "sample-controller".
Definition driverName : string := "gpu.example.com".

(** *** Environment: the ResourceSlice store of the cluster API *)

Inductive StatusReason :=
| StatusReasonNotFound
| StatusReasonAlreadyExists
| StatusReasonServiceUnavailable.

Record StatusError := { Reason : StatusReason; Message : string }.

(** [errors.IsNotFound]. *)
Definition IsNotFound (err : StatusError) : bool :=
  match Reason err with StatusReasonNotFound => true | _ => false end.

Record ResourceSlice := {
  Driver : string;
  PoolName : string;
  Devices : list resourceapi.Device;
}.

(** The slices by name; [available] is false while the server cannot answer. *)
Record Cluster := {
  ResourceSlices : gmap string ResourceSlice;
  available : bool;
}.

Definition notFound (name : string) : StatusError :=
  {| Reason := StatusReasonNotFound;
     Message := "resourceslices.resource.k8s.io " +:+ name +:+ " not found" |}.

Definition unavailable : StatusError :=
  {| Reason := StatusReasonServiceUnavailable;
     Message := "the server is currently unable to handle the request" |}.

(** [ResourceV1().ResourceSlices().Delete(ctx, name, opts)]. *)
Definition ResourceSlices_Delete (name : string) (c : Cluster)
  : Cluster * option StatusError :=
  if negb (available c) then (c, Some unavailable)
  else match ResourceSlices c !! name with
       | None => (c, Some (notFound name))
       | Some _ =>
           ({| ResourceSlices := delete name (ResourceSlices c);
               available := available c |}, None)
       end.

(** *** The reconciler *)

(** [getResourceSliceName]: [fmt.Sprintf("%s-%s", controllerName, claim.UID)]. *)
Definition getResourceSliceName (claim : resourceapi.ResourceClaim) : string :=
  controllerName +:+ "-" +:+ metav1.UID (resourceapi.Meta claim).

(** [IsDeviceClassRelevant], on the name of the device class. *)
Definition IsDeviceClassRelevant (deviceClassName : string) : bool :=
  String.eqb deviceClassName driverName.

(** [Delete]: [err != nil && !errors.IsNotFound(err)] is the only failure. *)
Definition Delete (claim : resourceapi.ResourceClaim) (c : Cluster)
  : Cluster * result unit :=
  let sliceName := getResourceSliceName claim in
  let '(c', err) := ResourceSlices_Delete sliceName c in
  match err with
  | Some e =>
      if negb (IsNotFound e)
      then (c', Err ("failed to delete ResourceSlice " +:+ sliceName +:+ ": " +:+ Message e))
      else (c', Ok tt)
  | None => (c', Ok tt)
  end.

End controller.

(** ** The sample reconciler's slices and pkg/controller

    The rest of [drivers/subinterface/controlller/main.go]: [Reconcile] of
    the sample reconciler, and the controller framework that follows it in
    the same file ([Reconciler], [Controller], [addOrUpdate], [delete] and the
    handlers that [NewController] registers). *)

Module slices.

(** [metav1.OwnerReference]. *)
Record OwnerReference := {
  APIVersion : string;
  Kind : string;
  Name : string;
  UID : string;
  Controller : option bool;
  BlockOwnerDeletion : option bool;
}.

(** [resourcev1.ResourcePool]. *)
Record ResourcePool := {
  PoolName : string;                 (* the field [Name] *)
  Generation : Z;
  ResourceSliceCount : Z;
}.

(** A [resourcev1.Device] with its capacities, a quantity being a number of
    bytes. *)
Record Device := {
  Base : resourceapi.Device;         (* name and attributes *)
  Capacity : gmap string Z;
}.

(** [resourcev1.ResourceSlice]: the metadata and the spec that the sources
    fill in. *)
Record ResourceSlice := {
  SliceName : string;                (* [ObjectMeta.Name] *)
  OwnerReferences : list OwnerReference;
  NodeName : option string;
  Driver : string;
  Pool : ResourcePool;
  Devices : list Device;
}.

(** [resource.MustParse] of 4Gi. *)
Definition quantity_4Gi : Z := 4 * 2 ^ 30.

(** [SetOwnerReferences]. *)
Definition SetOwnerReferences (s : ResourceSlice) (refs : list OwnerReference)
  : ResourceSlice :=
  {| SliceName := SliceName s; OwnerReferences := refs; NodeName := NodeName s;
     Driver := Driver s; Pool := Pool s; Devices := Devices s |}.

(** [metav1.NewControllerRef(claim, SchemeGroupVersion.WithKind("ResourceClaim"))]. *)
Definition NewControllerRef (claim : resourceapi.ResourceClaim) : OwnerReference :=
  {| APIVersion := "resource.k8s.io/v1"; Kind := "ResourceClaim";
     Name := metav1.Name (resourceapi.Meta claim);
     UID := metav1.UID (resourceapi.Meta claim);
     Controller := Some true; BlockOwnerDeletion := Some true |}.

End slices.

Module reconciler.

(** [sampleReconciler]: its only field is the client, which is the access to
    the cluster state passed along. *)
Inductive sampleReconciler := NewSampleReconciler.

(** [Reconcile]: the slice of one virtual GPU; the error is always nil. *)
Definition Reconcile (c : sampleReconciler) (claim : resourceapi.ResourceClaim)
  : result slices.ResourceSlice :=
  let sliceName := controller.getResourceSliceName claim in
  let virtualDevice :=
    {| slices.Base :=
         {| resourceapi.Name := "virtual-gpu-" +:+ metav1.UID (resourceapi.Meta claim);
            resourceapi.Attributes :=
              <["type" := resourceapi.stringAttribute "virtual-gpu"]> ∅ |};
       slices.Capacity := <["memory" := slices.quantity_4Gi]> ∅ |} in
  Ok {| slices.SliceName := sliceName;
        slices.OwnerReferences := [];
        slices.NodeName := Some "node0";
        slices.Driver := controller.driverName;
        slices.Pool := {| slices.PoolName := "virtual-gpus"; slices.Generation := 1;
                          slices.ResourceSliceCount := 1 |};
        slices.Devices := [virtualDevice] |}.

End reconciler.

Module pkgcontroller.

(** *** Environment: device classes and slice creation

    The API server of [controller.Cluster] together with the names of its
    device classes. Of a created slice the store keeps what
    [controller.ResourceSlice] records. *)
Record Server := {
  cluster : controller.Cluster;
  deviceClasses : gset string;
}.

Definition set_cluster (c : controller.Cluster) (s : Server) : Server :=
  {| cluster := c; deviceClasses := deviceClasses s |}.

Definition alreadyExists (name : string) : controller.StatusError :=
  {| controller.Reason := controller.StatusReasonAlreadyExists;
     controller.Message := "resourceslices.resource.k8s.io " +:+ name +:+ " already exists" |}.

(** [errors.IsAlreadyExists]. *)
Definition IsAlreadyExists (err : controller.StatusError) : bool :=
  match controller.Reason err with
  | controller.StatusReasonAlreadyExists => true
  | _ => false
  end.

Definition stored (s : slices.ResourceSlice) : controller.ResourceSlice :=
  {| controller.Driver := slices.Driver s;
     controller.PoolName := slices.PoolName (slices.Pool s);
     controller.Devices := map slices.Base (slices.Devices s) |}.

(** [ResourceV1().DeviceClasses().Get(ctx, name, opts)]: the class, which is
    known by its name. *)
Definition DeviceClasses_Get (name : string) (s : Server)
  : result string :=
  if negb (controller.available (cluster s))
  then Err (controller.Message controller.unavailable)
  else if bool_decide (name ∈ deviceClasses s) then Ok name
  else Err ("deviceclasses.resource.k8s.io " +:+ name +:+ " not found").

(** [ResourceV1().ResourceSlices().Create(ctx, slice, opts)]. *)
Definition ResourceSlices_Create (slice : slices.ResourceSlice) (s : Server)
  : Server * option controller.StatusError :=
  let c := cluster s in
  if negb (controller.available c) then (s, Some controller.unavailable)
  else match controller.ResourceSlices c !! slices.SliceName slice with
       | Some _ => (s, Some (alreadyExists (slices.SliceName slice)))
       | None =>
           (set_cluster
              {| controller.ResourceSlices :=
                   <[slices.SliceName slice := stored slice]> (controller.ResourceSlices c);
                 controller.available := controller.available c |} s,
            None)
       end.

(** *** The framework *)

(** The [Reconciler] interface. *)
Class Reconciler (R : Type) := {
  IsDeviceClassRelevant : R -> string -> bool;
  Reconcile : R -> resourceapi.ResourceClaim -> result slices.ResourceSlice;
  Delete : R -> resourceapi.ResourceClaim -> controller.Cluster
           -> controller.Cluster * result unit;
}.

(** A [*resourcev1.ResourceClaim] as the framework reads it: the claim and
    [Spec.DeviceClassName]. *)
Record ClaimObject := {
  Claim : resourceapi.ResourceClaim;
  DeviceClassName : string;
}.

(** What an informer hands to a handler as [interface{}]. *)
Inductive Object :=
| ResourceClaimObject (claim : ClaimObject)
| DeletedFinalStateUnknown (key : string) (obj : Object)
| OtherObject (typeName : string).

(** [Controller]; the client is the [Server] passed along and the informer
    is the source of the events below. *)
Record Controller (R : Type) := {
  controllerName : string;
  reconciler : R;
}.
Arguments controllerName {R} c.
Arguments reconciler {R} c.

Section handlers.
Context {R : Type} `{Reconciler R} (c : Controller R).

(** [addOrUpdate]: every early return leaves the server alone; the error of
    [Create] is only logged. *)
Definition addOrUpdate (obj : Object) (s : Server) : Server :=
  match obj with
  | ResourceClaimObject claim =>
      match resourceapi.Allocation (resourceapi.Status (Claim claim)) with
      | None => s
      | Some _ =>
          match DeviceClasses_Get (DeviceClassName claim) s with
          | Err _ => s
          | Ok deviceClass =>
              if negb (IsDeviceClassRelevant (reconciler c) deviceClass) then s
              else
                match Reconcile (reconciler c) (Claim claim) with
                | Err _ => s
                | Ok resourceSlice =>
                    let resourceSlice :=
                      slices.SetOwnerReferences resourceSlice
                        [slices.NewControllerRef (Claim claim)] in
                    fst (ResourceSlices_Create resourceSlice s)
                end
          end
      end
  | _ => s
  end.

(** [delete]: a claim, or a tombstone holding one; the error of the
    reconciler's [Delete] is only logged. *)
Definition delete (obj : Object) (s : Server) : Server :=
  let run (claim : ClaimObject) :=
    set_cluster (fst (Delete (reconciler c) (Claim claim) (cluster s))) s in
  match obj with
  | ResourceClaimObject claim => run claim
  | DeletedFinalStateUnknown _ tombstoneObj =>
      match tombstoneObj with
      | ResourceClaimObject claim => run claim
      | _ => s
      end
  | OtherObject _ => s
  end.

(** The handlers that [NewController] registers with the informer. *)
Inductive Event :=
| Added (obj : Object)
| Updated (old new : Object)
| Deleted (obj : Object).

Definition handle (ev : Event) (s : Server) : Server :=
  match ev with
  | Added obj => addOrUpdate obj s
  | Updated _ new => addOrUpdate new s
  | Deleted obj => delete obj s
  end.

(** The events of a watch, handled in order. *)
Definition handleAll (evs : list Event) (s : Server) : Server :=
  fold_left (fun s ev => handle ev s) evs s.

End handlers.

End pkgcontroller.

#[global] Instance sampleReconciler_Reconciler
  : pkgcontroller.Reconciler reconciler.sampleReconciler := {|
  pkgcontroller.IsDeviceClassRelevant := fun _ => controller.IsDeviceClassRelevant;
  pkgcontroller.Reconcile := reconciler.Reconcile;
  pkgcontroller.Delete := fun _ => controller.Delete;
|}.

(** The controller that [main] builds. *)
Definition sampleController : pkgcontroller.Controller reconciler.sampleReconciler :=
  {| pkgcontroller.controllerName := controller.controllerName;
     pkgcontroller.reconciler := reconciler.NewSampleReconciler |}.

(** ** Notions the properties are stated with *)

(** *** The device registry *)

(** The filtering rule of the device registry, on the flag bits. *)
Definition administratively_down (l : Link) : Prop :=
  Z.testbit (Flags (Attrs l)) 0 = false.

Definition loopback (l : Link) : Prop :=
  Z.testbit (Flags (Attrs l)) 2 = true.

Definition virtualPrefixes : list string := ["veth"; "docker"; "cni"].

Definition virtual (l : Link) : Prop :=
  Exists (fun p => HasPrefix (Name (Attrs l)) p = true) virtualPrefixes.

Definition assignable (l : Link) : Prop :=
  ¬ administratively_down l ∧ ¬ loopback l ∧ ¬ virtual l.

#[global] Instance assignable_dec (l : Link) : Decision (assignable l).
Proof. unfold assignable, administratively_down, loopback, virtual. apply _. Defined.

(** The device that the registry reports for a link: named like the link,
    with the name and the printed hardware address as its attributes. *)
Definition describes (d : resourceapi.Device) (l : Link) : Prop :=
  resourceapi.Name d = Name (Attrs l) /\
  resourceapi.Attributes d =
    <["interface-name" := resourceapi.stringAttribute (Name (Attrs l))]>
    (<["mac-address" :=
         resourceapi.stringAttribute (HardwareAddr_String (HardwareAddr (Attrs l)))]> ∅).

(** The links of the host namespace, as [LinkList] reports them. *)
Definition host_links (w : World) : list Link :=
  map (fun p => link_of (fst p) (snd p)) (map_to_list (host (kernel w))).

(** *** The allocation boundary *)

(** The devices allocated to a claim: none if the allocation is absent. *)
Definition bound_devices (claim : resourceapi.ResourceClaim)
  : list resourceapi.DeviceRequestAllocationResult :=
  match resourceapi.Allocation (resourceapi.Status claim) with
  | None => []
  | Some a => resourceapi.Results (resourceapi.Devices a)
  end.




(** *** Sub-interfaces and moves *)

Definition is_macvlan (k : LinkType) : bool :=
  match k with Macvlan _ => true | _ => false end.

Definition is_ipvlan (k : LinkType) : bool :=
  match k with IPVlan _ => true | _ => false end.

(** A device named [name] that hangs off the device with index [parent] and
    whose kind satisfies [is_kind], in the host or in some namespace. *)
Definition active_slave (K : Kernel) (parent : Z) (is_kind : LinkType -> bool)
    (name : string) : Prop :=
  (exists d, host K !! name = Some d /\ iflink d = parent /\ is_kind (kind d) = true) \/
  (exists ns inv d, netns K !! ns = Some inv /\ inv !! name = Some d /\
                    iflink d = parent /\ is_kind (kind d) = true).

(** A conflict error that names the existing slave. *)
Definition names_existing_slave (r : result unit) (existing : string) : Prop :=
  match r with
  | Err msg => Contains msg existing = true
  | Ok _ => False
  end.

(** The claim on a conflict, for an ipvlan request on a parent that backs a
    macvlan: the error names the existing slave, and nothing changes. *)
Definition conflict_is_explicit (path dev : string) (mode : IPVlanMode) (w : World) : Prop :=
  forall parent existing,
    host (kernel w) !! dev = Some parent ->
    active_slave (kernel w) (ifindex parent) is_macvlan existing ->
    names_existing_slave (snd (kndnet.addIPVlan path dev mode w)) existing /\
    kernel (fst (kndnet.addIPVlan path dev mode w)) = kernel w.

(** The kernel after the host device [d], found under [name], has moved to
    namespace [ns] (with devices [inv]) under [newname]. *)
Definition moved_in (name : string) (ns : Z) (newname : string) (d : netdev)
    (inv : gmap string netdev) (K : Kernel) : Kernel :=
  set_netns (<[ns := <[newname := d]> inv]> (netns K))
    (set_host (delete name (host K)) K).

(** The kernel after a slave [d] named [name] has been added to the host
    namespace. *)
Definition slave_on_host (name : string) (d : netdev) (K : Kernel) : Kernel :=
  set_host (<[name := d]> (host K)) K.

(** The slave the sources ask for: no flags, no address of their choosing. *)
Definition new_slave (parent : netdev) (k : LinkType) (inv : gmap string netdev) : netdev :=
  {| ifindex := next_index inv; ifflags := 0; hwaddr := [];
     iflink := ifindex parent; kind := k |}.

(** A slave of kind [k] named [name], parented to the host link [dev], has
    been created in the namespace bound at [path], between the kernels [K]
    and [K']: the host namespace is untouched, the parent with it, and the
    slave is the only device added anywhere. *)
Definition slave_created (path dev name : string) (k : LinkType) (K K' : Kernel) : Prop :=
  exists ns parent inv slave,
    nspath K !! path = Some ns /\
    host K !! dev = Some parent /\
    netns K !! ns = Some inv /\
    inv !! name = None /\
    iflink slave = ifindex parent /\
    kind slave = k /\
    host K' = host K /\
    host K' !! dev = Some parent /\
    netns K' = <[ns := <[name := slave]> inv]> (netns K) /\
    nspath K' = nspath K.

(** *** The slice controller *)

(** [Delete] of a claim whose slice is absent: success. *)
Definition delete_of_absent_succeeds (claim : resourceapi.ResourceClaim)
    (c : controller.Cluster) : Prop :=
  controller.ResourceSlices c !! controller.getResourceSliceName claim = None ->
  snd (controller.Delete claim c) = Ok tt.

(** The slice name of a claim object, and what the store keeps of the slice
    that the sample reconciler builds for it. *)
Definition sliceNameOf (claim : pkgcontroller.ClaimObject) : string :=
  controller.getResourceSliceName (pkgcontroller.Claim claim).

Definition sampleSlice (claim : pkgcontroller.ClaimObject) : controller.ResourceSlice :=
  {| controller.Driver := controller.driverName;
     controller.PoolName := "virtual-gpus";
     controller.Devices :=
       [{| resourceapi.Name :=
             "virtual-gpu-" +:+ metav1.UID (resourceapi.Meta (pkgcontroller.Claim claim));
           resourceapi.Attributes :=
             <["type" := resourceapi.stringAttribute "virtual-gpu"]> ∅ |}] |}.

(** The slices of a server, by name. *)
Definition slicesOf (s : pkgcontroller.Server) : gmap string controller.ResourceSlice :=
  controller.ResourceSlices (pkgcontroller.cluster s).

(** When [addOrUpdate] of the sample controller gets as far as a successful
    [Create]: the server answers, the claim is allocated, its device class
    exists and is the driver's, and no slice has the name yet. *)
Definition creates (claim : pkgcontroller.ClaimObject) (s : pkgcontroller.Server) : bool :=
  controller.available (pkgcontroller.cluster s)
  && bool_decide (is_Some (resourceapi.Allocation
                             (resourceapi.Status (pkgcontroller.Claim claim))))
  && bool_decide (pkgcontroller.DeviceClassName claim ∈ pkgcontroller.deviceClasses s)
  && String.eqb (pkgcontroller.DeviceClassName claim) controller.driverName
  && bool_decide (slicesOf s !! sliceNameOf claim = None).

(** The claim that a handler finds in an object, if any: a claim itself, or
    for [delete] a tombstone holding one. *)
Definition claimAdded (obj : pkgcontroller.Object) : option pkgcontroller.ClaimObject :=
  match obj with
  | pkgcontroller.ResourceClaimObject claim => Some claim
  | _ => None
  end.

Definition claimDeleted (obj : pkgcontroller.Object) : option pkgcontroller.ClaimObject :=
  match obj with
  | pkgcontroller.ResourceClaimObject claim => Some claim
  | pkgcontroller.DeletedFinalStateUnknown _ (pkgcontroller.ResourceClaimObject claim) =>
      Some claim
  | _ => None
  end.

(** The claims that the add and update events of a watch carry. *)
Definition claimsAdded (evs : list pkgcontroller.Event) : list pkgcontroller.ClaimObject :=
  omap (fun ev => match ev with
                  | pkgcontroller.Added obj => claimAdded obj
                  | pkgcontroller.Updated _ new => claimAdded new
                  | pkgcontroller.Deleted _ => None
                  end) evs.

(** *** Sequences of driver calls *)

(** A call of one of the methods of [Driver], as the plugin issues them. *)
Inductive DriverCall :=
| CallGetDevices
| CallPrepareDevice (claim : resourceapi.ResourceClaim)
| CallUnprepareDevice (claim : kubeletplugin.NamespacedObject)
| CallConfigureDeviceForPod (device : driver.AllocatedDevice) (networkNamespace : string)
    (podSandbox : nri.PodSandbox) (preparedData : any)
| CallCleanupDeviceForPod (device : driver.AllocatedDevice) (networkNamespace : string)
    (podSandbox : nri.PodSandbox) (preparedData : any).

(** The node after a call, and after a sequence of calls in order. *)
Definition perform {D : Type} `{Driver D} (drv : D) (op : DriverCall) (w : World) : World :=
  match op with
  | CallGetDevices => fst (GetDevices drv w)
  | CallPrepareDevice claim => fst (PrepareDevice drv claim w)
  | CallUnprepareDevice claim => fst (UnprepareDevice drv claim w)
  | CallConfigureDeviceForPod device ns pod data =>
      fst (ConfigureDeviceForPod drv device ns pod data w)
  | CallCleanupDeviceForPod device ns pod data =>
      fst (CleanupDeviceForPod drv device ns pod data w)
  end.

Definition performAll {D : Type} `{Driver D} (drv : D) (calls : list DriverCall)
    (w : World) : World :=
  fold_left (fun w op => perform drv op w) calls w.

(** What the node agent's call writes to the resource file, if anything. *)
Definition written (op : DriverCall) : option string :=
  match op with
  | CallPrepareDevice claim => Some (metav1.UID (resourceapi.Meta claim))
  | CallUnprepareDevice _ => Some EmptyString
  | _ => None
  end.

(** What the last writing call of a sequence writes. *)
Definition lastWritten (calls : list DriverCall) : option string :=
  fold_left (fun acc op => match written op with Some d => Some d | None => acc end)
    calls None.

(** The calls of the sandbox hooks. *)
Definition is_hook (op : DriverCall) : bool :=
  match op with
  | CallConfigureDeviceForPod _ _ _ _ | CallCleanupDeviceForPod _ _ _ _ => true
  | _ => false
  end.

(** *** The stages of a sub-interface creation *)

(** A run [r] from [w] that creates the slave [name] of kind [k] on [dev] in
    the namespace at [path] goes through up to three operations and stops at
    the first failure, with an error that tells the stage; [word] is the kind
    as the last message spells it. *)
Definition subinterface_stages (r : World * result unit) (w : World)
    (path dev name : string) (k : LinkType) (word : string) : Prop :=
  (nspath (kernel w) !! path = None ->
   r = (log (NetnsOpen path) w,
        Err ("could not get network namespace from path " +:+ path
             +:+ " for network device " +:+ dev +:+ " : " +:+ ENOENT))) /\
  (forall ns, nspath (kernel w) !! path = Some ns ->
     host (kernel w) !! dev = None \/ rtnl_ok (kernel w) = false ->
     r = (log (RtnlGetLink dev) (log (NetnsOpen path) w),
          Err ("could not find parent interface " +:+ dev +:+ " : "
               +:+ (if rtnl_ok (kernel w) then LinkNotFound else EPERM)))) /\
  (forall ns parent, nspath (kernel w) !! path = Some ns ->
     rtnl_ok (kernel w) = true ->
     host (kernel w) !! dev = Some parent ->
     trace (fst r) =
       (trace w ++ [NetnsOpen path; RtnlGetLink dev;
                    RtnlNewLink name k (ifindex parent) ns])%list /\
     (snd r = Ok tt \/
      exists e, snd r = Err ("failed to create the " +:+ name +:+ " " +:+ word
                             +:+ " interface: " +:+ e) /\
                kernel (fst r) = kernel w)) /\
  files (fst r) = files w /\ shared (fst r) = shared w.

(** What the sources do instead: the slave joins the devices of the host,
    where no device had its name, and no namespace gets anything; the parent
    is still there, unchanged. *)
Definition slave_lands_on_host (path dev name : string) (k : LinkType) (K K' : Kernel)
  : Prop :=
  exists ns parent slave,
    nspath K !! path = Some ns /\
    host K !! dev = Some parent /\
    host K !! name = None /\
    iflink slave = ifindex parent /\
    kind slave = k /\
    host K' = <[name := slave]> (host K) /\
    host K' !! dev = Some parent /\
    netns K' = netns K /\
    nspath K' = nspath K.

(** ** Scenarios *)

Definition plain_device (index flags : Z) (mac : list Z) : netdev :=
  {| ifindex := index; ifflags := flags; hwaddr := mac; iflink := 0; kind := Device |}.

Definition up_flags : Z := FlagUp + FlagBroadcast + FlagMulticast + FlagRunning.

Definition nothing_prepared : driver.SharedState :=
  {| driver.PodDeviceConfig := ∅; driver.PreparedData := ∅ |}.

Definition world_of (k : Kernel) : World :=
  {| kernel := k; files := ∅; readonly := false; stat_eio := false;
     shared := nothing_prepared; trace := [] |}.

Definition no_kernel : Kernel :=
  {| host := ∅; netns := ∅; nspath := ∅; rtnl_ok := true |}.

(** A node with nothing prepared, and the same node refusing writes. *)
Definition fresh_node : World := world_of no_kernel.


(** A host with the loopback [lo] and an [eth0] that is down. *)
Definition lo_and_down_eth0 : World :=
  world_of
    {| host := <["lo" := plain_device 1 (FlagUp + FlagLoopback + FlagRunning) []]>
               (<["eth0" := plain_device 2 (FlagBroadcast + FlagMulticast)
                              [2; 66; 172; 17; 0; 2]]> ∅);
       netns := ∅; nspath := ∅; rtnl_ok := true |}.

(** A host with [eth1] and [eth2] up, a veth, and an empty namespace for
    pod A. *)
Definition host_with_eth1 : World :=
  world_of
    {| host := <["lo" := plain_device 1 (FlagUp + FlagLoopback + FlagRunning) []]>
               (<["eth1" := plain_device 3 up_flags [2; 66; 172; 17; 0; 3]]>
               (<["eth2" := plain_device 4 up_flags [2; 66; 172; 17; 0; 4]]>
               (<["veth1a2b" := {| ifindex := 9; ifflags := up_flags;
                                   hwaddr := [10; 88; 0; 1; 2; 3]; iflink := 0;
                                   kind := Veth |}]> ∅)));
       netns := <[7 := ∅]> ∅;
       nspath := <["/run/netns/pod-a" := 7]> ∅;
       rtnl_ok := true |}.

(** A host whose [eth0] already backs a macvlan slave in pod A's namespace;
    pod B's namespace is empty. *)
Definition macvlan_on_eth0 : World :=
  world_of
    {| host := <["eth0" := plain_device 2 up_flags [2; 66; 172; 17; 0; 2]]> ∅;
       netns := <[7 := <["mavlan-eth0" :=
                          {| ifindex := 1; ifflags := 0; hwaddr := []; iflink := 2;
                             kind := Macvlan MACVLAN_MODE_BRIDGE |}]> ∅]>
                (<[8 := ∅]> ∅);
       nspath := <["/run/netns/pod-a" := 7]> (<["/run/netns/pod-b" := 8]> ∅);
       rtnl_ok := true |}.

Definition claim_of (name uid : string)
    (allocation : option (list resourceapi.DeviceRequestAllocationResult))
  : resourceapi.ResourceClaim :=
  {| resourceapi.Meta :=
       {| metav1.Name := name; metav1.Namespace := "default"; metav1.UID := uid |};
     resourceapi.Status :=
       {| resourceapi.Allocation :=
            option_map (fun rs => {| resourceapi.Devices := {| resourceapi.Results := rs |} |})
              allocation |} |}.

Definition allocated (dev : string) : resourceapi.DeviceRequestAllocationResult :=
  {| resourceapi.Request := "nic"; resourceapi.Driver := "hostdevice.k8s.io";
     resourceapi.Pool := "node0"; resourceapi.Device_ := dev |}.

(** A claim bound to [eth1] and [eth2], one without allocation, one with an
    empty one. *)
Definition claim_eth1 : resourceapi.ResourceClaim :=
  claim_of "claim-a" "7f3c" (Some [allocated "eth1"; allocated "eth2"]).
Definition claim_unallocated : resourceapi.ResourceClaim :=
  claim_of "claim-b" "90ab" None.
Definition claim_empty : resourceapi.ResourceClaim :=
  claim_of "claim-c" "55d0" (Some []).

Definition workload_90ab : kubeletplugin.NamespacedObject :=
  {| kubeletplugin.Namespace := "default"; kubeletplugin.Name := "claim-b";
     kubeletplugin.UID := "90ab" |}.

Definition pod_a : nri.PodSandbox :=
  {| nri.Name := "pod-a"; nri.Namespace := "default"; nri.Uid := "7f3c" |}.

Definition device_eth1 : driver.AllocatedDevice :=
  {| driver.Name := "eth1"; driver.Attributes := ∅; driver.PoolName := "node0";
     driver.Request := "nic" |}.

Definition device_eth2 : driver.AllocatedDevice :=
  {| driver.Name := "eth2"; driver.Attributes := ∅; driver.PoolName := "node0";
     driver.Request := "nic" |}.

(** [eth1] of [host_with_eth1] moved into pod A's namespace, and back. *)
Definition eth1_moved_in : World :=
  fst (kndnet.MoveIn "eth1" "/run/netns/pod-a" "eth1" kndnet.direct host_with_eth1).

Definition eth1_moved_back : World :=
  fst (kndnet.MoveOut "/run/netns/pod-a" "eth1" "eth1" kndnet.direct eth1_moved_in).

(** The Configuring transition of a workload holding [eth1] and [eth2],
    prepared by the host-device driver (which hands on the first name). *)
Definition configuring_two_devices : World * result unit :=
  dispatcher.configuring hostdevice.NewDriver "/run/netns/pod-a" pod_a (AnyString "eth1")
    [device_eth1; device_eth2] [] host_with_eth1.

(** A cluster holding the slice of the claim with UID 7f3c. *)
Definition cluster_with_slice : controller.Cluster :=
  {| controller.ResourceSlices :=
       <["sample-controller-7f3c" :=
           {| controller.Driver := controller.driverName;
              controller.PoolName := "virtual-gpus";
              controller.Devices := [] |}]> ∅;
     controller.available := true |}.

(** The claim with UID 7f3c as the controller sees it, of the driver's
    device class; a server that knows the class and holds no slice; and the
    claim's sibling with UID 90ab. *)
Definition gpu_claim : pkgcontroller.ClaimObject :=
  {| pkgcontroller.Claim := claim_eth1;
     pkgcontroller.DeviceClassName := "gpu.example.com" |}.

Definition other_gpu_claim : pkgcontroller.ClaimObject :=
  {| pkgcontroller.Claim := claim_of "claim-b" "90ab" (Some [allocated "gpu0"]);
     pkgcontroller.DeviceClassName := "gpu.example.com" |}.

Definition empty_server : pkgcontroller.Server :=
  {| pkgcontroller.cluster :=
       {| controller.ResourceSlices := ∅; controller.available := true |};
     pkgcontroller.deviceClasses := {["gpu.example.com"]} |}.

(** A server that also holds a slice published by someone else, and a watch
    that adds both claims, updates one and deletes the other through a
    tombstone. *)
Definition server_with_foreign_slice : pkgcontroller.Server :=
  {| pkgcontroller.cluster :=
       {| controller.ResourceSlices :=
            <["node0-hostdevice" :=
                {| controller.Driver := "hostdevice.k8s.io";
                   controller.PoolName := "node0"; controller.Devices := [] |}]> ∅;
          controller.available := true |};
     pkgcontroller.deviceClasses := {["gpu.example.com"]} |}.

Definition watch_events : list pkgcontroller.Event :=
  [pkgcontroller.Added (pkgcontroller.ResourceClaimObject gpu_claim);
   pkgcontroller.Added (pkgcontroller.ResourceClaimObject other_gpu_claim);
   pkgcontroller.Updated (pkgcontroller.ResourceClaimObject gpu_claim)
     (pkgcontroller.ResourceClaimObject gpu_claim);
   pkgcontroller.Deleted
     (pkgcontroller.DeletedFinalStateUnknown "default/claim-b"
        (pkgcontroller.ResourceClaimObject other_gpu_claim))].

(** The plugin prepares two claims on the node agent and unprepares a third
    workload. *)
Definition agent_calls : list DriverCall :=
  [CallPrepareDevice claim_eth1; CallGetDevices;
   CallPrepareDevice (pkgcontroller.Claim other_gpu_claim);
   CallConfigureDeviceForPod device_eth1 "/run/netns/pod-a" pod_a (AnyString "7f3c");
   CallUnprepareDevice workload_90ab].

(** The allocation side of the host-device driver at work. *)
Definition allocation_calls : list DriverCall :=
  [CallGetDevices; CallPrepareDevice claim_eth1; CallPrepareDevice claim_unallocated;
   CallUnprepareDevice workload_90ab; CallGetDevices].

(** The host of [host_with_eth1], but pod A's namespace already holds a
    device called [mavlan-eth1]; then the macvlan move in, and the move out. *)
Definition pod_with_stale_device : World :=
  world_of
    {| host := host (kernel host_with_eth1);
       netns := <[7 := <["mavlan-eth1" := plain_device 2 0 [10; 0; 0; 0; 0; 9]]> ∅]> ∅;
       nspath := nspath (kernel host_with_eth1);
       rtnl_ok := true |}.

Definition stale_moved_in : World :=
  fst (kndnet.MoveIn "eth1" "/run/netns/pod-a" "eth1"
         (kndnet.macvlan MACVLAN_MODE_BRIDGE) pod_with_stale_device).

Definition stale_moved_out : World :=
  fst (kndnet.MoveOut "/run/netns/pod-a" "mavlan-eth1" "eth1"
         (kndnet.macvlan MACVLAN_MODE_BRIDGE) stale_moved_in).

(** A host whose only device has a name of nine characters. *)
Definition host_with_enp0s31f6 : World :=
  world_of
    {| host := <["enp0s31f6" := plain_device 2 up_flags [2; 66; 172; 17; 0; 2]]> ∅;
       netns := <[7 := ∅]> ∅;
       nspath := <["/run/netns/pod-a" := 7]> ∅;
       rtnl_ok := true |}.

(** A cluster without slices whose server does not answer. *)
Definition silent_cluster : controller.Cluster :=
  {| controller.ResourceSlices := ∅; controller.available := false |}.


(** A node without the resource file whose file system answers stat with an
    I/O error. *)
Definition stat_failing_node : World :=
  {| kernel := no_kernel; files := ∅; readonly := false; stat_eio := true;
     shared := nothing_prepared; trace := [] |}.

(** * Properties *)

(** ** The device registry: [GetDevices] of the host-device driver *)

Lemma land_bit (f k : Z) :
  0 <= k -> (Z.land f (2 ^ k) =? 0)%Z = negb (Z.testbit f k).
Proof.
  intros Hk. destruct (Z.testbit f k) eqn:Hb; simpl.
  - apply Z.eqb_neq. intros H0.
    assert (Ht : Z.testbit (Z.land f (2 ^ k)) k = true).
    { rewrite Z.land_spec, Hb, Z.pow2_bits_true by lia. reflexivity. }
    rewrite H0, Z.bits_0 in Ht. discriminate.
  - apply Z.eqb_eq. apply Z.bits_inj'. intros n Hn.
    rewrite Z.land_spec, Z.bits_0.
    destruct (Z.eq_dec n k) as [->|Hne].
    + rewrite Hb. reflexivity.
    + rewrite Z.pow2_bits_false by lia. apply andb_false_r.
Qed.

Lemma loopback_test (l : Link) :
  negb (Z.land (Flags (Attrs l)) FlagLoopback =? 0)%Z = true <-> loopback l.
Proof.
  unfold loopback. change FlagLoopback with (2 ^ 2).
  rewrite land_bit by lia. rewrite negb_involutive. reflexivity.
Qed.

Lemma down_test (l : Link) :
  (Z.land (Flags (Attrs l)) FlagUp =? 0)%Z = true <-> administratively_down l.
Proof.
  unfold administratively_down. change FlagUp with (2 ^ 0).
  rewrite land_bit by lia. destruct (Z.testbit _ 0); simpl; split; congruence.
Qed.

Lemma virtual_test (l : Link) :
  HasPrefix (Name (Attrs l)) "veth" || HasPrefix (Name (Attrs l)) "docker"
  || HasPrefix (Name (Attrs l)) "cni" = true <-> virtual l.
Proof.
  unfold virtual, virtualPrefixes.
  rewrite !Exists_cons, Exists_nil, !orb_true_iff. tauto.
Qed.

(** The loop keeps a link exactly when it is assignable. *)
Lemma discover_step (link : Link) (rest : list Link) (devices : list resourceapi.Device) :
  hostdevice.discover (link :: rest) devices =
  hostdevice.discover rest
    (if decide (assignable link) then (devices ++ [hostdevice.device (Attrs link)])%list
     else devices).
Proof.
  simpl.
  destruct (negb (Z.land (Flags (Attrs link)) FlagLoopback =? 0)%Z) eqn:Hl.
  { apply loopback_test in Hl. simpl.
    rewrite decide_False; [reflexivity | unfold assignable; tauto]. }
  destruct (Z.land (Flags (Attrs link)) FlagUp =? 0)%Z eqn:Hu.
  { apply down_test in Hu. simpl.
    rewrite decide_False; [reflexivity | unfold assignable; tauto]. }
  simpl.
  destruct (HasPrefix (Name (Attrs link)) "veth" || HasPrefix (Name (Attrs link)) "docker"
            || HasPrefix (Name (Attrs link)) "cni") eqn:Hv.
  { apply virtual_test in Hv.
    rewrite decide_False; [reflexivity | unfold assignable; tauto]. }
  rewrite decide_True; [reflexivity |].
  repeat split.
  - intros Hd. apply down_test in Hd. congruence.
  - intros Hd. apply loopback_test in Hd. congruence.
  - intros Hd. apply virtual_test in Hd. congruence.
Qed.

Lemma discover_filter (links : list Link) (devices : list resourceapi.Device) :
  hostdevice.discover links devices =
  (devices ++ map (fun l => hostdevice.device (Attrs l)) (filter assignable links))%list.
Proof.
  revert devices. induction links as [|link rest IH]; intros devices.
  - simpl. rewrite app_nil_r. reflexivity.
  - rewrite discover_step, IH, filter_cons.
    destruct (decide (assignable link)); simpl.
    + rewrite <- app_assoc. reflexivity.
    + reflexivity.
Qed.

Lemma device_describes (links : list Link) :
  Forall2 describes (map (fun l => hostdevice.device (Attrs l)) links) links.
Proof.
  induction links as [|l links IH]; constructor; [split; reflexivity | exact IH].
Qed.

(** C7. [GetDevices] reports the enumeration error if the links cannot be
    listed; otherwise it returns, without error, exactly one device for each
    host link that is not administratively down, not loopback and not named
    with one of the prefixes veth, docker, cni, and none for any other link:
    in the order the links are listed, each device is named like its link and
    carries the link's name and hardware address as attributes. It changes
    nothing in the kernel. On a host with only the loopback [lo] and a down
    [eth0] the list is empty. *)
Theorem GetDevices_returns_assignable_links :
  (forall w : World,
     kernel (fst (hostdevice.GetDevices hostdevice.NewDriver w)) = kernel w /\
     (rtnl_ok (kernel w) = false ->
      snd (hostdevice.GetDevices hostdevice.NewDriver w) =
        Err ("failed to list network interfaces: " +:+ EPERM)) /\
     (rtnl_ok (kernel w) = true ->
      exists devices,
        snd (hostdevice.GetDevices hostdevice.NewDriver w) = Ok devices /\
        Forall2 describes devices (filter assignable (host_links w)))) /\
  snd (hostdevice.GetDevices hostdevice.NewDriver lo_and_down_eth0) = Ok [].
Proof.
  split.
  - intros w. unfold hostdevice.GetDevices, bind_wrap, LinkList, ret.
    destruct (rtnl_ok (kernel w)); simpl; repeat split; try discriminate.
    intros _. eexists. split; [reflexivity|].
    rewrite discover_filter. apply device_describes.
  - vm_compute. reflexivity.
Qed.

Lemma GetDevices_returns_assignable_links_witness :
  exists devices,
    snd (hostdevice.GetDevices hostdevice.NewDriver host_with_eth1) = Ok devices /\
    Forall2 describes devices (filter assignable (host_links host_with_eth1)).
Proof.
  exact (proj2 (proj2 (proj1 GetDevices_returns_assignable_links host_with_eth1)) eq_refl).
Defined.

Example HardwareAddr_String_eth0 :
  HardwareAddr_String [2; 66; 172; 17; 0; 2] = "02:42:ac:11:00:02".
Proof. reflexivity. Qed.

(** On [host_with_eth1] the loopback and the veth are left out. *)
Example GetDevices_host_with_eth1 :
  snd (hostdevice.GetDevices hostdevice.NewDriver host_with_eth1) =
    Ok [hostdevice.device (Attrs (link_of "eth1" (plain_device 3 up_flags [2; 66; 172; 17; 0; 3])));
        hostdevice.device (Attrs (link_of "eth2" (plain_device 4 up_flags [2; 66; 172; 17; 0; 4])))].
Proof. vm_compute. reflexivity. Qed.

(** ** The allocation boundary: [PrepareDevice] and [UnprepareDevice] *)

(** The value of the host-device driver's [PrepareDevice]. *)
Lemma hostdevice_PrepareDevice_eq (claim : resourceapi.ResourceClaim) (w : World) :
  hostdevice.PrepareDevice hostdevice.NewDriver claim w =
  (w, match bound_devices claim with
      | [] => Err ("claim " +:+ metav1.Name (resourceapi.Meta claim)
                   +:+ " has no allocated devices")
      | r :: _ => Ok (AnyString (resourceapi.Device_ r))
      end).
Proof.
  unfold hostdevice.PrepareDevice, hostdevice.noAllocatedDevices, bound_devices.
  destruct (resourceapi.Allocation (resourceapi.Status claim)) as [a|]; [|reflexivity].
  destruct (resourceapi.Results (resourceapi.Devices a)); reflexivity.
Qed.

(** C5. The host-device driver's [PrepareDevice] fails with the error that
    reports the missing allocation exactly when the claim has no bound device
    (allocation absent or its device list empty); otherwise it returns the
    name of the first bound device. Either way it returns at once: the node
    is left as it was and no operation is issued, so nothing is retried. *)
Theorem PrepareDevice_no_allocation_error
    (claim : resourceapi.ResourceClaim) (w : World) :
  hostdevice.PrepareDevice hostdevice.NewDriver claim w =
  (w, match bound_devices claim with
      | [] => Err ("claim " +:+ metav1.Name (resourceapi.Meta claim)
                   +:+ " has no allocated devices")
      | r :: _ => Ok (AnyString (resourceapi.Device_ r))
      end).
Proof. apply hostdevice_PrepareDevice_eq. Qed.

Example PrepareDevice_unallocated :
  snd (hostdevice.PrepareDevice hostdevice.NewDriver claim_unallocated fresh_node) =
    Err "claim claim-b has no allocated devices" /\
  snd (hostdevice.PrepareDevice hostdevice.NewDriver claim_empty fresh_node) =
    Err "claim claim-c has no allocated devices" /\
  snd (hostdevice.PrepareDevice hostdevice.NewDriver claim_eth1 fresh_node) =
    Ok (AnyString "eth1").
Proof. repeat split. Qed.









(** ** The sandbox hooks of the host-device driver *)

(** C9. If the prepared data is not a string, [ConfigureDeviceForPod] and
    [CleanupDeviceForPod] both return the invalid-prepared-data error at
    once: the node (host and target namespaces included) is left as it was
    and no operation is issued. *)
Theorem invalid_prepared_data_rejected
    (device : driver.AllocatedDevice) (networkNamespace : string)
    (podSandbox : nri.PodSandbox) (preparedData : any) (w : World) :
  is_string preparedData = false ->
  hostdevice.ConfigureDeviceForPod hostdevice.NewDriver device networkNamespace
    podSandbox preparedData w =
    (w, Err ("invalid prepared data type: expected string, got "
             +:+ typeName preparedData)) /\
  hostdevice.CleanupDeviceForPod hostdevice.NewDriver device networkNamespace
    podSandbox preparedData w =
    (w, Err ("invalid prepared data type: expected string, got "
             +:+ typeName preparedData)).
Proof.
  intros Hns. destruct preparedData; try discriminate; split; reflexivity.
Qed.

Lemma invalid_prepared_data_rejected_witness :
  hostdevice.ConfigureDeviceForPod hostdevice.NewDriver device_eth1 "/run/netns/pod-a"
    pod_a (AnyInt 7) fresh_node =
    (fresh_node, Err "invalid prepared data type: expected string, got int") /\
  hostdevice.CleanupDeviceForPod hostdevice.NewDriver device_eth1 "/run/netns/pod-a"
    pod_a AnyNil fresh_node =
    (fresh_node, Err "invalid prepared data type: expected string, got <nil>").
Proof.
  split.
  - apply (invalid_prepared_data_rejected device_eth1 "/run/netns/pod-a" pod_a
             (AnyInt 7) fresh_node). reflexivity.
  - apply (invalid_prepared_data_rejected device_eth1 "/run/netns/pod-a" pod_a
             AnyNil fresh_node). reflexivity.
Defined.

(** ** The reconciler *)

Lemma Delete_eq (claim : resourceapi.ResourceClaim) (c : controller.Cluster) :
  controller.Delete claim c =
  if controller.available c
  then ({| controller.ResourceSlices :=
             delete (controller.getResourceSliceName claim) (controller.ResourceSlices c);
           controller.available := true |}, Ok tt)
  else (c, Err ("failed to delete ResourceSlice " +:+ controller.getResourceSliceName claim
                +:+ ": " +:+ controller.Message controller.unavailable)).
Proof.
  unfold controller.Delete, controller.ResourceSlices_Delete.
  destruct c as [slices av]. simpl. destruct av; simpl; [|reflexivity].
  destruct (slices !! controller.getResourceSliceName claim) eqn:Hs; simpl.
  - reflexivity.
  - rewrite delete_id by exact Hs. reflexivity.
Qed.

(** Counterexample to C10 as stated: the slice of the claim is absent, but
    the server does not answer, and [Delete] returns the error. *)
Lemma Delete_of_absent_slice_can_fail :
  snd (controller.Delete claim_eth1 silent_cluster) =
    Err ("failed to delete ResourceSlice sample-controller-7f3c: "
         +:+ "the server is currently unable to handle the request") /\
  ~ delete_of_absent_succeeds claim_eth1 silent_cluster.
Proof.
  split; [vm_compute; reflexivity|].
  intros H. specialize (H eq_refl). vm_compute in H. discriminate.
Qed.

(** C10, amended. The slice of a claim is named [sample-controller-<UID>].
    While the server answers, [Delete] returns success when that slice is absent (the
    not-found error of the deletion is treated as success) and leaves the
    store as it was; called twice in sequence it returns success both times,
    the slice being absent after the first call. *)
Theorem Delete_is_idempotent (claim : resourceapi.ResourceClaim) (c : controller.Cluster) :
  controller.available c = true ->
  controller.getResourceSliceName claim =
    "sample-controller-" +:+ metav1.UID (resourceapi.Meta claim) /\
  (controller.ResourceSlices c !! controller.getResourceSliceName claim = None ->
   fst (controller.ResourceSlices_Delete (controller.getResourceSliceName claim) c) = c /\
   option_map controller.IsNotFound
     (snd (controller.ResourceSlices_Delete (controller.getResourceSliceName claim) c))
     = Some true /\
   controller.Delete claim c = (c, Ok tt)) /\
  (let first := controller.Delete claim c in
   let second := controller.Delete claim (fst first) in
   snd first = Ok tt /\ snd second = Ok tt /\ fst second = fst first /\
   controller.ResourceSlices (fst first) !! controller.getResourceSliceName claim = None).
Proof.
  intros Hav. split; [reflexivity|]. split.
  - intros Habs. unfold controller.Delete, controller.ResourceSlices_Delete.
    rewrite Hav, Habs. simpl. auto.
  - cbv zeta. rewrite (Delete_eq claim c), Hav. simpl.
    rewrite Delete_eq. simpl. rewrite lookup_delete_eq.
    repeat split. f_equal. apply delete_id, lookup_delete_eq.
Qed.

Lemma Delete_is_idempotent_witness :
  snd (controller.Delete claim_eth1 cluster_with_slice) = Ok tt /\
  snd (controller.Delete claim_eth1 (fst (controller.Delete claim_eth1 cluster_with_slice)))
    = Ok tt.
Proof.
  pose proof (Delete_is_idempotent claim_eth1 cluster_with_slice eq_refl) as H.
  destruct H as (_ & _ & H1 & H2 & _). split; [exact H1 | exact H2].
Defined.

(** ** The kernel model: what each call can do *)

Lemma has_index_lookup (ns : gmap string netdev) (name : string) (d : netdev) :
  ns !! name = Some d -> has_index (ifindex d) ns = true.
Proof.
  intros Hd. unfold has_index. apply bool_decide_eq_true.
  apply map_Exists_lookup. exists name, d. auto.
Qed.

Lemma conflicting_other_kind (k : LinkType) (parent : Z) (d : netdev) :
  iflink d = parent ->
  (is_macvlan k = true /\ is_ipvlan (kind d) = true) \/
  (is_ipvlan k = true /\ is_macvlan (kind d) = true) ->
  conflicting k parent d = true.
Proof.
  intros Hp Hk. unfold conflicting. rewrite bool_decide_eq_true_2 by exact Hp.
  destruct k, (kind d); simpl in *; intuition congruence.
Qed.

Lemma has_conflict_slave (K : Kernel) (k : LinkType) (parent : Z)
    (is_kind : LinkType -> bool) (name : string) :
  active_slave K parent is_kind name ->
  (forall k', is_kind k' = true ->
     (is_macvlan k = true /\ is_ipvlan k' = true) \/
     (is_ipvlan k = true /\ is_macvlan k' = true)) ->
  has_conflict k parent K = true.
Proof.
  intros Hs Hk. unfold has_conflict. apply orb_true_iff.
  destruct Hs as [(d & Hd & Hp & Hkd) | (ns & inv & d & Hns & Hd & Hp & Hkd)].
  - left. apply bool_decide_eq_true, map_Exists_lookup.
    exists name, d. split; [exact Hd|]. apply conflicting_other_kind; auto.
  - right. apply bool_decide_eq_true, map_Exists_lookup.
    exists ns, inv. split; [exact Hns|]. apply map_Exists_lookup.
    exists name, d. split; [exact Hd|]. apply conflicting_other_kind; auto.
Qed.

Lemma prefix_append (p a : string) : String.prefix p (p +:+ a) = true.
Proof.
  induction p as [|ch p IH]; simpl; [destruct a; reflexivity|].
  destruct (ascii_dec ch ch); [exact IH | congruence].
Qed.

Lemma index_prefix (s1 s2 : string) :
  String.prefix s1 s2 = true -> String.index 0 s1 s2 = Some 0%nat.
Proof.
  intros Hp. destruct s2 as [|ch s2]; cbn [String.index].
  - destruct s1; [reflexivity | discriminate].
  - rewrite Hp. reflexivity.
Qed.

(** A message built around a name contains it. *)
Lemma Contains_infix (a sub b : string) : Contains (a +:+ sub +:+ b) sub = true.
Proof.
  unfold Contains. induction a as [|ch a IH].
  - change (EmptyString +:+ sub +:+ b) with (sub +:+ b).
    rewrite index_prefix by apply prefix_append. reflexivity.
  - change (String ch a +:+ sub +:+ b) with (String ch (a +:+ sub +:+ b)).
    cbn [String.index].
    destruct (String.prefix sub (String ch (a +:+ sub +:+ b))); [reflexivity|].
    destruct (String.index 0 sub (a +:+ sub +:+ b)); [reflexivity | discriminate].
Qed.

(** [LinkAdd] either fails and leaves the kernel alone, or adds the one
    device; with [Namespace] unset, as the sources leave it, the device joins
    the host, whatever [NetNsID] says. *)
Lemma LinkAdd_cases (l : Link) (w : World) :
  (exists e, snd (LinkAdd l w) = Err e /\ kernel (fst (LinkAdd l w)) = kernel w) \/
  (snd (LinkAdd l w) = Ok tt /\
   has_conflict (Type_ l) (ParentIndex (Attrs l)) (kernel w) = false /\
   (Namespace (Attrs l) = None ->
    host (kernel w) !! Name (Attrs l) = None /\
    kernel (fst (LinkAdd l w)) =
      slave_on_host (Name (Attrs l))
        {| ifindex := next_index (host (kernel w)); ifflags := Flags (Attrs l);
           hwaddr := HardwareAddr (Attrs l); iflink := ParentIndex (Attrs l);
           kind := Type_ l |} (kernel w))).
Proof.
  unfold LinkAdd. cbv zeta.
  destruct (negb (rtnl_ok (kernel w))); [left; eauto|].
  destruct (IFNAMSIZ <=? String.length (Name (Attrs l)))%nat; [left; eauto|].
  destruct (negb (is_subinterface (Type_ l))); [left; eauto|].
  destruct (negb (has_index (ParentIndex (Attrs l)) (host (kernel w)))); [left; eauto|].
  destruct (has_conflict (Type_ l) (ParentIndex (Attrs l)) (kernel w)) eqn:Hc;
    [left; eauto|].
  destruct (Namespace (Attrs l)) as [fd|].
  - destruct (netns (kernel w) !! fd) as [ns|]; [|left; eauto].
    destruct (ns !! Name (Attrs l)); [left; eauto|].
    right. split; [reflexivity|]. split; [reflexivity|]. discriminate.
  - destruct (host (kernel w) !! Name (Attrs l)) eqn:Hn; [left; eauto|].
    right. split; [reflexivity|]. split; [reflexivity|]. intros _. split; reflexivity.
Qed.

(** With a slave of the other kind on the parent, [LinkAdd] is refused: the
    name is too long, or else the device is busy. *)
Lemma LinkAdd_refused (l : Link) (w : World) :
  rtnl_ok (kernel w) = true ->
  is_subinterface (Type_ l) = true ->
  has_index (ParentIndex (Attrs l)) (host (kernel w)) = true ->
  has_conflict (Type_ l) (ParentIndex (Attrs l)) (kernel w) = true ->
  exists e,
    LinkAdd l w =
    (log (RtnlNewLink (Name (Attrs l)) (Type_ l) (ParentIndex (Attrs l)) (NetNsID (Attrs l))) w,
     Err e).
Proof.
  intros Hok Hsub Hidx Hc. unfold LinkAdd. cbv zeta.
  rewrite Hok, Hsub, Hidx, Hc. cbn [negb].
  destruct (IFNAMSIZ <=? String.length (Name (Attrs l)))%nat; eauto.
Qed.

(** [addMacVlan] and [addIPVlan] have one shape: resolve the namespace, find
    the parent, add the link. The script follows it. *)
Ltac add_slave_cases w path dev :=
  unfold kndnet.addMacVlan, kndnet.addIPVlan, bind_wrap, netns.GetFromPath,
    LinkByName, ret;
  destruct (nspath (kernel w) !! path) as [ns|] eqn:Hp; [|left; eauto];
  simpl; destruct (rtnl_ok (kernel w)); [|left; eauto];
  destruct (host (kernel w) !! dev) as [parent|] eqn:Hd; [|left; eauto];
  match goal with
  | |- context [LinkAdd ?l ?w'] =>
      destruct (LinkAdd_cases l w') as [(e & He & Hk) | (Hr & _ & Hhost)];
      [|destruct (Hhost eq_refl) as [Hn Hk]; clear Hhost];
      destruct (LinkAdd l w') as [w'' r] eqn:Hadd
  end;
  simpl in *; subst;
  [left; eauto | right; split; [reflexivity|]; do 2 eexists; repeat split; eassumption].

Lemma addMacVlan_cases (path dev : string) (mode : MacvlanMode) (w : World) :
  (exists e, snd (kndnet.addMacVlan path dev mode w) = Err e /\
             kernel (fst (kndnet.addMacVlan path dev mode w)) = kernel w) \/
  (snd (kndnet.addMacVlan path dev mode w) = Ok tt /\
   exists ns parent,
     nspath (kernel w) !! path = Some ns /\
     host (kernel w) !! dev = Some parent /\
     host (kernel w) !! ("mavlan-" +:+ dev) = None /\
     kernel (fst (kndnet.addMacVlan path dev mode w)) =
       slave_on_host ("mavlan-" +:+ dev)
         (new_slave parent (Macvlan mode) (host (kernel w))) (kernel w)).
Proof. add_slave_cases w path dev. Qed.

Lemma addIPVlan_cases (path dev : string) (mode : IPVlanMode) (w : World) :
  (exists e, snd (kndnet.addIPVlan path dev mode w) = Err e /\
             kernel (fst (kndnet.addIPVlan path dev mode w)) = kernel w) \/
  (snd (kndnet.addIPVlan path dev mode w) = Ok tt /\
   exists ns parent,
     nspath (kernel w) !! path = Some ns /\
     host (kernel w) !! dev = Some parent /\
     host (kernel w) !! ("ipvaln-" +:+ dev) = None /\
     kernel (fst (kndnet.addIPVlan path dev mode w)) =
       slave_on_host ("ipvaln-" +:+ dev)
         (new_slave parent (IPVlan mode) (host (kernel w))) (kernel w)).
Proof. add_slave_cases w path dev. Qed.

Example addMacVlan_errors :
  snd (kndnet.addMacVlan "/run/netns/pod-x" "eth1" MACVLAN_MODE_VEPA host_with_eth1) =
    Err ("could not get network namespace from path /run/netns/pod-x "
         +:+ "for network device eth1 : no such file or directory") /\
  snd (kndnet.addMacVlan "/run/netns/pod-a" "eth7" MACVLAN_MODE_VEPA host_with_eth1) =
    Err "could not find parent interface eth7 : Link not found".
Proof. split; vm_compute; reflexivity. Qed.

(** ** Sub-interfaces *)

(** A slave that landed on the host was not created in the target. *)
Lemma lands_on_host_not_created (path dev name : string) (k : LinkType) (K K' : Kernel) :
  slave_lands_on_host path dev name k K K' -> ~ slave_created path dev name k K K'.
Proof.
  intros (ns & parent & slave & _ & _ & Hn & _ & _ & Hh & _)
         (ns' & parent' & inv & slave' & _ & _ & _ & _ & _ & _ & Hh' & _).
  rewrite Hh' in Hh. rewrite Hh, lookup_insert_eq in Hn. discriminate.
Qed.

Lemma slave_on_host_lands (path dev name : string) (k : LinkType) (K : Kernel)
    (ns : Z) (parent : netdev) :
  nspath K !! path = Some ns ->
  host K !! dev = Some parent ->
  host K !! name = None ->
  slave_lands_on_host path dev name k K
    (slave_on_host name (new_slave parent k (host K)) K).
Proof.
  intros Hp Hd Hn. exists ns, parent, (new_slave parent k (host K)).
  simpl. repeat split; auto.
  rewrite lookup_insert_ne; [exact Hd|]. intros <-. congruence.
Qed.

(** C8, as the sources have it. A successful [addMacVlan], and likewise a
    successful [addIPVlan], creates one slave parented to the named host
    link, but on the host: the request names the target namespace only in
    [NetNsID], which does not place the device. The devices of the host are
    those from before and the slave, the parent among them, unchanged; no
    namespace gets anything. So the slave is not created in the target
    namespace with the host left as it was. *)
Theorem subinterface_is_created_on_the_host (path dev : string) (w w' : World) :
  (forall mode, kndnet.addMacVlan path dev mode w = (w', Ok tt) ->
     slave_lands_on_host path dev ("mavlan-" +:+ dev) (Macvlan mode) (kernel w) (kernel w') /\
     ~ slave_created path dev ("mavlan-" +:+ dev) (Macvlan mode) (kernel w) (kernel w')) /\
  (forall mode, kndnet.addIPVlan path dev mode w = (w', Ok tt) ->
     slave_lands_on_host path dev ("ipvaln-" +:+ dev) (IPVlan mode) (kernel w) (kernel w') /\
     ~ slave_created path dev ("ipvaln-" +:+ dev) (IPVlan mode) (kernel w) (kernel w')).
Proof.
  split; intros mode Hadd.
  - destruct (addMacVlan_cases path dev mode w)
      as [(e & He & _) | (_ & ns & parent & Hp & Hd & Hn & Hk)];
      rewrite Hadd in *; simpl in *; [discriminate|].
    assert (Hl : slave_lands_on_host path dev ("mavlan-" +:+ dev) (Macvlan mode)
                   (kernel w) (kernel w'))
      by (rewrite Hk; eapply slave_on_host_lands; eauto).
    split; [exact Hl | exact (lands_on_host_not_created _ _ _ _ _ _ Hl)].
  - destruct (addIPVlan_cases path dev mode w)
      as [(e & He & _) | (_ & ns & parent & Hp & Hd & Hn & Hk)];
      rewrite Hadd in *; simpl in *; [discriminate|].
    assert (Hl : slave_lands_on_host path dev ("ipvaln-" +:+ dev) (IPVlan mode)
                   (kernel w) (kernel w'))
      by (rewrite Hk; eapply slave_on_host_lands; eauto).
    split; [exact Hl | exact (lands_on_host_not_created _ _ _ _ _ _ Hl)].
Qed.

Lemma subinterface_is_created_on_the_host_witness :
  snd (kndnet.addMacVlan "/run/netns/pod-a" "eth1" MACVLAN_MODE_BRIDGE host_with_eth1)
    = Ok tt /\
  is_Some (host (kernel (fst (kndnet.addMacVlan "/run/netns/pod-a" "eth1"
                                MACVLAN_MODE_BRIDGE host_with_eth1))) !! "mavlan-eth1") /\
  netns (kernel (fst (kndnet.addMacVlan "/run/netns/pod-a" "eth1" MACVLAN_MODE_BRIDGE
                        host_with_eth1))) !! 7 = Some ∅ /\
  ~ slave_created "/run/netns/pod-a" "eth1" "mavlan-eth1" (Macvlan MACVLAN_MODE_BRIDGE)
      (kernel host_with_eth1)
      (kernel (fst (kndnet.addMacVlan "/run/netns/pod-a" "eth1" MACVLAN_MODE_BRIDGE
                      host_with_eth1))) /\
  ~ slave_created "/run/netns/pod-a" "eth1" "ipvaln-eth1" (IPVlan IPVLAN_MODE_L2)
      (kernel host_with_eth1)
      (kernel (fst (kndnet.addIPVlan "/run/netns/pod-a" "eth1" IPVLAN_MODE_L2
                      host_with_eth1))).
Proof.
  split; [vm_compute; reflexivity|].
  split; [eexists; vm_compute; reflexivity|].
  split; [vm_compute; reflexivity|].
  split.
  - apply (proj1 (subinterface_is_created_on_the_host "/run/netns/pod-a" "eth1"
                    host_with_eth1 _) MACVLAN_MODE_BRIDGE).
    vm_compute. reflexivity.
  - apply (proj2 (subinterface_is_created_on_the_host "/run/netns/pod-a" "eth1"
                    host_with_eth1 _) IPVLAN_MODE_L2).
    vm_compute. reflexivity.
Defined.

Lemma macvlan_on_eth0_slave :
  active_slave (kernel macvlan_on_eth0) 2 is_macvlan "mavlan-eth0".
Proof.
  right. exists 7, (<["mavlan-eth0" :=
                      {| ifindex := 1; ifflags := 0; hwaddr := []; iflink := 2;
                         kind := Macvlan MACVLAN_MODE_BRIDGE |}]> ∅),
    {| ifindex := 1; ifflags := 0; hwaddr := []; iflink := 2;
       kind := Macvlan MACVLAN_MODE_BRIDGE |}.
  repeat split; vm_compute; reflexivity.
Qed.

(** Counterexample to C2 as stated: [eth0] backs the macvlan slave
    [mavlan-eth0]; the ipvlan request fails with the link-creation error,
    which does not name that slave. *)
Lemma ipvlan_conflict_error_is_generic :
  snd (kndnet.addIPVlan "/run/netns/pod-b" "eth0" IPVLAN_MODE_L2 macvlan_on_eth0) =
    Err "failed to create the ipvaln-eth0 ipvlan interface: device or resource busy" /\
  ~ conflict_is_explicit "/run/netns/pod-b" "eth0" IPVLAN_MODE_L2 macvlan_on_eth0.
Proof.
  split; [vm_compute; reflexivity|].
  intros H.
  destruct (H (plain_device 2 up_flags [2; 66; 172; 17; 0; 2]) "mavlan-eth0") as [Hn _].
  - vm_compute. reflexivity.
  - exact macvlan_on_eth0_slave.
  - vm_compute in Hn. discriminate.
Qed.

(** C2, amended. When the parent already backs a slave of the other kind
    (and the target namespace is reachable), [addIPVlan] and [addMacVlan]
    fail with the link-creation error, the one they return whenever the
    kernel refuses the new link: it carries the error the kernel answered the
    request with, whichever that is, behind a text that names the slave that
    was to be created. Host and target namespaces are left as they were. *)
Theorem subinterface_conflict_is_link_creation_error
    (path dev existing : string) (w : World) (ns : Z) (parent : netdev) :
  rtnl_ok (kernel w) = true ->
  nspath (kernel w) !! path = Some ns ->
  host (kernel w) !! dev = Some parent ->
  (active_slave (kernel w) (ifindex parent) is_macvlan existing ->
   forall mode, exists e,
     snd (LinkAdd {| Attrs := kndnet.attrs_named ("ipvaln-" +:+ dev) (ifindex parent) ns;
                     Type_ := IPVlan mode |}
            (fst (LinkByName dev (fst (netns.GetFromPath path w))))) = Err e /\
     snd (kndnet.addIPVlan path dev mode w) =
       Err ("failed to create the " +:+ ("ipvaln-" +:+ dev) +:+ " ipvlan interface: "
            +:+ e) /\
     Contains ("failed to create the " +:+ ("ipvaln-" +:+ dev) +:+ " ipvlan interface: "
               +:+ e) ("ipvaln-" +:+ dev) = true /\
     kernel (fst (kndnet.addIPVlan path dev mode w)) = kernel w) /\
  (active_slave (kernel w) (ifindex parent) is_ipvlan existing ->
   forall mode, exists e,
     snd (LinkAdd {| Attrs := kndnet.attrs_named ("mavlan-" +:+ dev) (ifindex parent) ns;
                     Type_ := Macvlan mode |}
            (fst (LinkByName dev (fst (netns.GetFromPath path w))))) = Err e /\
     snd (kndnet.addMacVlan path dev mode w) =
       Err ("failed to create the " +:+ ("mavlan-" +:+ dev) +:+ " macvlan interface: "
            +:+ e) /\
     Contains ("failed to create the " +:+ ("mavlan-" +:+ dev) +:+ " macvlan interface: "
               +:+ e) ("mavlan-" +:+ dev) = true /\
     kernel (fst (kndnet.addMacVlan path dev mode w)) = kernel w).
Proof.
  intros Hok Hp Hd. split; intros Hs mode.
  - unfold kndnet.addIPVlan, bind_wrap, netns.GetFromPath, LinkByName.
    rewrite Hp. simpl. rewrite Hok, Hd. simpl.
    match goal with
    | |- context [LinkAdd ?l ?w'] =>
        destruct (LinkAdd_refused l w') as [e He];
          [exact Hok | reflexivity | simpl; eauto using has_index_lookup
          | simpl; eapply has_conflict_slave; [exact Hs|]; intros k' Hk'; right; auto |]
    end.
    rewrite He. simpl. exists e.
    split; [reflexivity|]. split; [reflexivity|]. split; [apply Contains_infix | reflexivity].
  - unfold kndnet.addMacVlan, bind_wrap, netns.GetFromPath, LinkByName.
    rewrite Hp. simpl. rewrite Hok, Hd. simpl.
    match goal with
    | |- context [LinkAdd ?l ?w'] =>
        destruct (LinkAdd_refused l w') as [e He];
          [exact Hok | reflexivity | simpl; eauto using has_index_lookup
          | simpl; eapply has_conflict_slave; [exact Hs|]; intros k' Hk'; left; auto |]
    end.
    rewrite He. simpl. exists e.
    split; [reflexivity|]. split; [reflexivity|]. split; [apply Contains_infix | reflexivity].
Qed.

Lemma subinterface_conflict_is_link_creation_error_witness :
  exists e,
    snd (kndnet.addIPVlan "/run/netns/pod-b" "eth0" IPVLAN_MODE_L3 macvlan_on_eth0) =
      Err ("failed to create the " +:+ ("ipvaln-" +:+ "eth0") +:+ " ipvlan interface: "
           +:+ e) /\
    kernel (fst (kndnet.addIPVlan "/run/netns/pod-b" "eth0" IPVLAN_MODE_L3 macvlan_on_eth0))
      = kernel macvlan_on_eth0.
Proof.
  destruct (proj1 (subinterface_conflict_is_link_creation_error
                     "/run/netns/pod-b" "eth0" "mavlan-eth0" macvlan_on_eth0 8
                     (plain_device 2 up_flags [2; 66; 172; 17; 0; 2])
                     eq_refl ltac:(vm_compute; reflexivity) ltac:(vm_compute; reflexivity))
             macvlan_on_eth0_slave IPVLAN_MODE_L3) as (e & _ & Hr & _ & Hk).
  exists e. split; [exact Hr | exact Hk].
Defined.

(** ** Direct moves *)

Lemma NsAttachNetdev_cases (h path : string) (cfg : LinkAttrs) (w : World) :
  (exists e, snd (kndnet.NsAttachNetdev h path cfg w) = Err e /\
             kernel (fst (kndnet.NsAttachNetdev h path cfg w)) = kernel w) \/
  (snd (kndnet.NsAttachNetdev h path cfg w) = Ok tt /\
   exists ns d inv,
     rtnl_ok (kernel w) = true /\
     nspath (kernel w) !! path = Some ns /\
     host (kernel w) !! h = Some d /\
     netns (kernel w) !! ns = Some inv /\
     inv !! Name cfg = None /\
     kernel (fst (kndnet.NsAttachNetdev h path cfg w)) =
       moved_in h ns (Name cfg) d inv (kernel w)).
Proof.
  unfold kndnet.NsAttachNetdev, bind_wrap, netns.GetFromPath, LinkSetNs, ret.
  destruct (nspath (kernel w) !! path) as [ns|] eqn:Hp; [|left; eauto].
  simpl. destruct (rtnl_ok (kernel w)); simpl; [|left; eauto].
  destruct (host (kernel w) !! h) as [d|] eqn:Hd; [|left; eauto].
  destruct (netns (kernel w) !! ns) as [inv|] eqn:Hns; [|left; eauto].
  destruct (inv !! Name cfg) eqn:Hn; [left; eauto|].
  right. split; [reflexivity|]. exists ns, d, inv. auto 10.
Qed.

(** Moving back out of a kernel in which the move in has just happened
    succeeds and gives the kernel from before the move. *)
Lemma NsDetachNetdev_undoes (h path newname : string) (ns : Z) (d : netdev)
    (inv : gmap string netdev) (K : Kernel) (w' : World) :
  rtnl_ok K = true ->
  nspath K !! path = Some ns ->
  host K !! h = Some d ->
  netns K !! ns = Some inv ->
  inv !! newname = None ->
  kernel w' = moved_in h ns newname d inv K ->
  snd (kndnet.NsDetachNetdev path newname h w') = Ok tt /\
  kernel (fst (kndnet.NsDetachNetdev path newname h w')) = K.
Proof.
  intros Hok Hp Hd Hns Hn Hk.
  destruct w' as [k fs ro eio sh tr]. simpl in Hk. subst k.
  unfold kndnet.NsDetachNetdev, netns.GetFromPath, LinkSetHost.
  simpl. rewrite Hp. simpl. rewrite Hok. simpl.
  rewrite !lookup_insert_eq, lookup_delete_eq. simpl. split; [reflexivity|].
  destruct K as [hs nss paths ok]. simpl in *. unfold set_netns, set_host. simpl.
  f_equal.
  - rewrite insert_delete_eq. apply insert_id, Hd.
  - rewrite insert_insert_eq, delete_insert_eq, delete_id by exact Hn.
    apply insert_id, Hns.
Qed.

(** Deleting a device of a namespace never changes the host. *)
Lemma delSubinterface_host (path name : string) (w : World) :
  host (kernel (fst (kndnet.delSubinterface path name w))) = host (kernel w).
Proof.
  unfold kndnet.delSubinterface, netns.GetFromPath, LinkDel.
  destruct (nspath (kernel w) !! path) as [ns|]; simpl; [|reflexivity].
  destruct (rtnl_ok (kernel w)); simpl; [|reflexivity].
  destruct (netns (kernel w) !! ns) as [inv|]; simpl; [|reflexivity].
  destruct (inv !! name); reflexivity.
Qed.

(** The host-device driver's hooks are the direct move under the same name. *)
Lemma hostdevice_hooks_are_direct_moves (device : driver.AllocatedDevice) (path : string)
    (pod : nri.PodSandbox) (h : string) :
  hostdevice.ConfigureDeviceForPod hostdevice.NewDriver device path pod (AnyString h) =
    kndnet.MoveIn h path h kndnet.direct /\
  hostdevice.CleanupDeviceForPod hostdevice.NewDriver device path pod (AnyString h) =
    kndnet.MoveOut path h h kndnet.direct.
Proof. split; reflexivity. Qed.

(** C4, as the sources have it. After a successful MoveIn in direct mode the
    MoveOut of the interface it left in the target succeeds and gives back
    the kernel from before the MoveIn, so the host namespace has the same
    interfaces with the same attributes: the MoveIn takes the interface off
    the host and puts it, unchanged, into the target namespace under the
    desired name, and the MoveOut puts it back on the host under its original
    name. The hooks of the host-device driver are these two direct moves. In
    macvlan and ipvlan mode the round trip fails: a successful MoveIn leaves
    the slave on the host, where no interface had its name, and the MoveOut,
    which deletes a slave in the target, leaves the host as the MoveIn left
    it, whatever it returns; the host has one interface more than before. *)
Theorem MoveIn_MoveOut_restores_direct_moves_only (h path desired : string)
    (mode : kndnet.Mode) (w w1 : World) :
  kndnet.MoveIn h path desired mode w = (w1, Ok tt) ->
  (mode = kndnet.direct ->
   snd (kndnet.MoveOut path (kndnet.movedName h desired mode) h mode w1) = Ok tt /\
   kernel (fst (kndnet.MoveOut path (kndnet.movedName h desired mode) h mode w1))
     = kernel w /\
   exists ns d inv,
     nspath (kernel w) !! path = Some ns /\
     host (kernel w) !! h = Some d /\
     netns (kernel w) !! ns = Some inv /\
     host (kernel w1) = delete h (host (kernel w)) /\
     host (kernel w1) !! h = None /\
     netns (kernel w1) !! ns = Some (<[desired := d]> inv) /\
     host (kernel (fst (kndnet.MoveOut path (kndnet.movedName h desired mode) h mode w1)))
       !! h = Some d) /\
  (mode <> kndnet.direct ->
   exists parent slave,
     host (kernel w) !! h = Some parent /\
     host (kernel w) !! kndnet.movedName h desired mode = None /\
     iflink slave = ifindex parent /\
     host (kernel w1) = <[kndnet.movedName h desired mode := slave]> (host (kernel w)) /\
     netns (kernel w1) = netns (kernel w) /\
     host (kernel (fst (kndnet.MoveOut path (kndnet.movedName h desired mode) h mode w1)))
       = host (kernel w1) /\
     host (kernel (fst (kndnet.MoveOut path (kndnet.movedName h desired mode) h mode w1)))
       <> host (kernel w)) /\
  (forall device pod,
     hostdevice.ConfigureDeviceForPod hostdevice.NewDriver device path pod (AnyString h) =
       kndnet.MoveIn h path h kndnet.direct /\
     hostdevice.CleanupDeviceForPod hostdevice.NewDriver device path pod (AnyString h) =
       kndnet.MoveOut path h h kndnet.direct).
Proof.
  intros Hin.
  assert (Hsub : forall name k,
    host (kernel w) !! name = None ->
    kernel w1 = slave_on_host name k (kernel w) ->
    host (kernel (fst (kndnet.delSubinterface path name w1))) = host (kernel w1) /\
    host (kernel (fst (kndnet.delSubinterface path name w1))) <> host (kernel w)).
  { intros name k Hn Hk. rewrite delSubinterface_host. split; [reflexivity|].
    rewrite Hk. simpl. intros Heq. rewrite <- Heq, lookup_insert_eq in Hn. discriminate. }
  split; [|split].
  - intros ->. simpl in *.
    destruct (NsAttachNetdev_cases h path (kndnet.attrs_named desired 0 0) w)
      as [(e & He & _) | (_ & ns & d & inv & Hok & Hp & Hd & Hns & Hn & Hk)];
      rewrite Hin in *; simpl in *; [discriminate|].
    destruct (NsDetachNetdev_undoes h path desired ns d inv (kernel w) w1
                Hok Hp Hd Hns Hn Hk) as [Hr Hk2].
    split; [exact Hr|]. split; [exact Hk2|].
    exists ns, d, inv. rewrite Hk2, Hk. simpl.
    rewrite lookup_insert_eq, lookup_delete_eq. auto 10.
  - intros Hmode. destruct mode as [|m|m]; [congruence| |]; simpl in *.
    + destruct (addMacVlan_cases path h m w)
        as [(e & He & _) | (_ & ns & parent & Hp & Hd & Hn & Hk)];
        rewrite Hin in *; simpl in *; [discriminate|].
      destruct (Hsub _ _ Hn Hk) as [Hsame Hdiff].
      exists parent, (new_slave parent (Macvlan m) (host (kernel w))).
      rewrite Hk at 1 2. simpl. auto 10.
    + destruct (addIPVlan_cases path h m w)
        as [(e & He & _) | (_ & ns & parent & Hp & Hd & Hn & Hk)];
        rewrite Hin in *; simpl in *; [discriminate|].
      destruct (Hsub _ _ Hn Hk) as [Hsame Hdiff].
      exists parent, (new_slave parent (IPVlan m) (host (kernel w))).
      rewrite Hk at 1 2. simpl. auto 10.
  - intros device pod. apply hostdevice_hooks_are_direct_moves.
Qed.

Lemma MoveIn_MoveOut_restores_direct_moves_only_witness :
  (host (kernel eth1_moved_in) !! "eth1" = None /\
   (netns (kernel eth1_moved_in) !! 7) ≫= (fun inv => inv !! "eth1") =
     Some (plain_device 3 up_flags [2; 66; 172; 17; 0; 3]) /\
   host (kernel eth1_moved_back) !! "eth1" =
     Some (plain_device 3 up_flags [2; 66; 172; 17; 0; 3]) /\
   kernel eth1_moved_back = kernel host_with_eth1) /\
  (snd (kndnet.MoveIn "eth1" "/run/netns/pod-a" "eth1" (kndnet.macvlan MACVLAN_MODE_BRIDGE)
          pod_with_stale_device) = Ok tt /\
   snd (kndnet.MoveOut "/run/netns/pod-a" "mavlan-eth1" "eth1"
          (kndnet.macvlan MACVLAN_MODE_BRIDGE) stale_moved_in) = Ok tt /\
   is_Some (host (kernel stale_moved_out) !! "mavlan-eth1") /\
   host (kernel stale_moved_out) <> host (kernel pod_with_stale_device)).
Proof.
  split.
  - split; [vm_compute; reflexivity|].
    split; [vm_compute; reflexivity|].
    split; [vm_compute; reflexivity|].
    apply (proj1 (MoveIn_MoveOut_restores_direct_moves_only
                    "eth1" "/run/netns/pod-a" "eth1" kndnet.direct
                    host_with_eth1 eth1_moved_in ltac:(vm_compute; reflexivity)) eq_refl).
  - split; [vm_compute; reflexivity|].
    split; [vm_compute; reflexivity|].
    split; [eexists; vm_compute; reflexivity|].
    destruct (proj1 (proj2 (MoveIn_MoveOut_restores_direct_moves_only
                              "eth1" "/run/netns/pod-a" "eth1"
                              (kndnet.macvlan MACVLAN_MODE_BRIDGE)
                              pod_with_stale_device stale_moved_in
                              ltac:(vm_compute; reflexivity)))
                ltac:(discriminate)) as (parent & slave & _ & _ & _ & _ & _ & _ & Hne).
    exact Hne.
Defined.

(** ** The Configuring transition *)

Section rollback.
Context {D : Type} `{Driver D} (drv : D).
Variables (networkNamespace : string) (podSandbox : nri.PodSandbox) (preparedData : any).

(** A failed configuration leaves the kernel alone. *)
Hypothesis failed_configure_is_atomic :
  forall device w w' err,
    ConfigureDeviceForPod drv device networkNamespace podSandbox preparedData w
      = (w', Err err) ->
    kernel w' = kernel w.

(** A cleanup run on the kernel a configuration produced gives back the
    kernel the configuration started from. *)
Hypothesis cleanup_undoes_configure :
  forall device w w1 w',
    ConfigureDeviceForPod drv device networkNamespace podSandbox preparedData w
      = (w1, Ok tt) ->
    kernel w' = kernel w1 ->
    kernel (fst (CleanupDeviceForPod drv device networkNamespace podSandbox
                   preparedData w')) = kernel w.

Lemma rolls_back_nil (K : Kernel) :
  dispatcher.rolls_back drv networkNamespace podSandbox preparedData [] K K.
Proof. intros w Hw. exact Hw. Qed.

Lemma rolls_back_cons (device : driver.AllocatedDevice)
    (moved : list driver.AllocatedDevice) (w w1 : World) (K0 : Kernel) :
  dispatcher.rolls_back drv networkNamespace podSandbox preparedData moved (kernel w) K0 ->
  ConfigureDeviceForPod drv device networkNamespace podSandbox preparedData w
    = (w1, Ok tt) ->
  dispatcher.rolls_back drv networkNamespace podSandbox preparedData (device :: moved)
    (kernel w1) K0.
Proof.
  intros Hmoved Hconf w' Hw'. simpl.
  apply Hmoved. eapply cleanup_undoes_configure; eauto.
Qed.

Lemma configuring_failure_rolls_back (devices moved : list driver.AllocatedDevice)
    (w w' : World) (err : string) (K0 : Kernel) :
  dispatcher.rolls_back drv networkNamespace podSandbox preparedData moved (kernel w) K0 ->
  dispatcher.configuring drv networkNamespace podSandbox preparedData devices moved w
    = (w', Err err) ->
  kernel w' = K0.
Proof.
  revert moved w. induction devices as [|device rest IH]; intros moved w Hmoved Hrun.
  - simpl in Hrun. discriminate.
  - simpl in Hrun.
    destruct (ConfigureDeviceForPod drv device networkNamespace podSandbox
                preparedData w) as [w1 [[]|e]] eqn:Hconf.
    + eapply IH; [|exact Hrun]. eapply rolls_back_cons; eauto.
    + inversion Hrun; subst. apply Hmoved.
      eapply failed_configure_is_atomic; eauto.
Qed.

End rollback.

Lemma hostdevice_failed_configure_is_atomic (path : string) (pod : nri.PodSandbox)
    (data : any) (device : driver.AllocatedDevice) (w w' : World) (err : string) :
  hostdevice.ConfigureDeviceForPod hostdevice.NewDriver device path pod data w
    = (w', Err err) ->
  kernel w' = kernel w.
Proof.
  intros Hconf. destruct data as [|h| | | |];
    try (simpl in Hconf; unfold fail in Hconf; congruence).
  simpl in Hconf.
  destruct (NsAttachNetdev_cases h path (kndnet.attrs_named h 0 0) w)
    as [(e & _ & Hk) | (Hr & _)]; rewrite Hconf in *; simpl in *; congruence.
Qed.

Lemma hostdevice_cleanup_undoes_configure (path : string) (pod : nri.PodSandbox)
    (data : any) (device : driver.AllocatedDevice) (w w1 w' : World) :
  hostdevice.ConfigureDeviceForPod hostdevice.NewDriver device path pod data w
    = (w1, Ok tt) ->
  kernel w' = kernel w1 ->
  kernel (fst (hostdevice.CleanupDeviceForPod hostdevice.NewDriver device path pod
                 data w')) = kernel w.
Proof.
  intros Hconf Hw'. destruct data as [|h| | | |];
    try (simpl in Hconf; unfold fail in Hconf; congruence).
  simpl in Hconf. simpl.
  destruct (NsAttachNetdev_cases h path (kndnet.attrs_named h 0 0) w)
    as [(e & He & _) | (_ & ns & d & inv & Hok & Hp & Hd & Hns & Hn & Hk)];
    rewrite Hconf in *; simpl in *; [discriminate|].
  rewrite <- Hw' in Hk.
  apply (NsDetachNetdev_undoes h path h ns d inv (kernel w) w' Hok Hp Hd Hns Hn Hk).
Qed.

(** C3. If a move fails during the Configuring transition of a workload, the
    devices already moved for it are moved back before the failure is
    reported: the kernel, and with it the host namespace, is as it was before
    the transition began. This holds for any number of devices, two or more
    included; the driver is the host-device driver. *)
Theorem configuring_failure_restores_host
    (devices : list driver.AllocatedDevice) (path : string) (pod : nri.PodSandbox)
    (data : any) (w w' : World) (err : string) :
  dispatcher.configuring hostdevice.NewDriver path pod data devices [] w = (w', Err err) ->
  kernel w' = kernel w /\ host (kernel w') = host (kernel w).
Proof.
  intros Hrun.
  assert (Hk : kernel w' = kernel w).
  { eapply (configuring_failure_rolls_back hostdevice.NewDriver path pod data);
      [| |apply rolls_back_nil|exact Hrun].
    - intros device v v' e. apply hostdevice_failed_configure_is_atomic.
    - intros device v v1 v'. apply hostdevice_cleanup_undoes_configure. }
  split; [exact Hk | rewrite Hk; reflexivity].
Qed.

Lemma configuring_failure_restores_host_witness :
  snd configuring_two_devices =
    Err "failed to move eth1 to /run/netns/pod-a : Link not found" /\
  kernel (fst configuring_two_devices) = kernel host_with_eth1.
Proof.
  split; [vm_compute; reflexivity|].
  apply (configuring_failure_restores_host [device_eth1; device_eth2]
           "/run/netns/pod-a" pod_a (AnyString "eth1") host_with_eth1
           (fst configuring_two_devices)
           "failed to move eth1 to /run/netns/pod-a : Link not found").
  vm_compute. reflexivity.
Defined.

(** * Further properties of the sources *)

(** ** The reconciler's names *)

Lemma append_inj (p a b : string) : p +:+ a = p +:+ b -> a = b.
Proof. induction p as [|ch p IH]; simpl; intros Heq; [exact Heq|]. injection Heq. exact IH. Qed.

Lemma sliceName_prefix (claim : resourceapi.ResourceClaim) :
  HasPrefix (controller.getResourceSliceName claim) "sample-controller-" = true.
Proof.
  unfold HasPrefix, controller.getResourceSliceName, controller.controllerName.
  change ("sample-controller" +:+ "-" +:+ metav1.UID (resourceapi.Meta claim))
    with ("sample-controller-" +:+ metav1.UID (resourceapi.Meta claim)).
  apply prefix_append.
Qed.

(** X1. Claims with different UIDs have different slices, and [Delete] of
    one claim leaves every slice but that claim's own as it is: the slice of
    a claim with another UID is neither removed nor changed. *)
Theorem Delete_leaves_other_claims_alone
    (a b : resourceapi.ResourceClaim) (c : controller.Cluster) :
  metav1.UID (resourceapi.Meta a) <> metav1.UID (resourceapi.Meta b) ->
  controller.getResourceSliceName a <> controller.getResourceSliceName b /\
  controller.ResourceSlices (fst (controller.Delete a c))
    !! controller.getResourceSliceName b =
  controller.ResourceSlices c !! controller.getResourceSliceName b /\
  (forall n, n <> controller.getResourceSliceName a ->
     controller.ResourceSlices (fst (controller.Delete a c)) !! n =
     controller.ResourceSlices c !! n).
Proof.
  intros Huid.
  assert (Hname : controller.getResourceSliceName a <> controller.getResourceSliceName b).
  { unfold controller.getResourceSliceName. intros Heq.
    apply append_inj in Heq. apply (append_inj "-") in Heq. contradiction. }
  assert (Hframe : forall n, n <> controller.getResourceSliceName a ->
     controller.ResourceSlices (fst (controller.Delete a c)) !! n =
     controller.ResourceSlices c !! n).
  { intros n Hn. rewrite Delete_eq.
    destruct (controller.available c); simpl; [|reflexivity].
    apply lookup_delete_ne. congruence. }
  split; [exact Hname|]. split; [|exact Hframe].
  apply Hframe. congruence.
Qed.

Lemma Delete_leaves_other_claims_alone_witness :
  controller.ResourceSlices
    (fst (controller.Delete (pkgcontroller.Claim other_gpu_claim) cluster_with_slice))
    !! controller.getResourceSliceName claim_eth1 =
  controller.ResourceSlices cluster_with_slice !! controller.getResourceSliceName claim_eth1.
Proof.
  assert (Huid : metav1.UID (resourceapi.Meta (pkgcontroller.Claim other_gpu_claim)) <>
                 metav1.UID (resourceapi.Meta claim_eth1)) by (vm_compute; discriminate).
  exact (proj1 (proj2 (Delete_leaves_other_claims_alone
                         (pkgcontroller.Claim other_gpu_claim) claim_eth1
                         cluster_with_slice Huid))).
Defined.

(** X2. [Delete] fails only when the server does not answer (an error other
    than not-found): the error then names the slice and carries the server's
    message, and the store is untouched. It never adds or changes a slice. *)
Theorem Delete_fails_only_on_server_error
    (claim : resourceapi.ResourceClaim) (c : controller.Cluster) :
  is_ok (snd (controller.Delete claim c)) = controller.available c /\
  (controller.available c = false ->
   controller.Delete claim c =
     (c, Err ("failed to delete ResourceSlice " +:+ controller.getResourceSliceName claim
              +:+ ": the server is currently unable to handle the request"))) /\
  (forall n x,
     controller.ResourceSlices (fst (controller.Delete claim c)) !! n = Some x ->
     controller.ResourceSlices c !! n = Some x).
Proof.
  rewrite Delete_eq. destruct (controller.available c) eqn:Hav; simpl.
  - split; [reflexivity|]. split; [discriminate|].
    intros n x Hn. apply lookup_delete_Some in Hn. tauto.
  - split; [reflexivity|]. split; [reflexivity|]. auto.
Qed.

Lemma Delete_fails_only_on_server_error_witness :
  controller.Delete claim_eth1
    {| controller.ResourceSlices := controller.ResourceSlices cluster_with_slice;
       controller.available := false |} =
  ({| controller.ResourceSlices := controller.ResourceSlices cluster_with_slice;
      controller.available := false |},
   Err ("failed to delete ResourceSlice " +:+ controller.getResourceSliceName claim_eth1
        +:+ ": the server is currently unable to handle the request")).
Proof.
  apply (proj1 (proj2 (Delete_fails_only_on_server_error claim_eth1
           {| controller.ResourceSlices := controller.ResourceSlices cluster_with_slice;
              controller.available := false |}))).
  reflexivity.
Defined.

(** ** The controller framework with the sample reconciler *)

(** What [addOrUpdate] does with a claim. *)
Lemma addOrUpdate_sample (claim : pkgcontroller.ClaimObject) (s : pkgcontroller.Server) :
  pkgcontroller.addOrUpdate sampleController (pkgcontroller.ResourceClaimObject claim) s =
  if creates claim s
  then pkgcontroller.set_cluster
         {| controller.ResourceSlices :=
              <[sliceNameOf claim := sampleSlice claim]> (slicesOf s);
            controller.available := true |} s
  else s.
Proof.
  unfold pkgcontroller.addOrUpdate, creates, slicesOf, sliceNameOf.
  destruct s as [[sl av] dc]. simpl.
  destruct (resourceapi.Allocation (resourceapi.Status (pkgcontroller.Claim claim)))
    as [alloc|] eqn:Halloc.
  2: { rewrite bool_decide_eq_false_2 by (intros [? ?]; discriminate).
       rewrite andb_false_r. reflexivity. }
  rewrite (bool_decide_eq_true_2 (is_Some (Some alloc))) by eauto.
  unfold pkgcontroller.DeviceClasses_Get, pkgcontroller.ResourceSlices_Create. simpl.
  destruct av; simpl; [|reflexivity].
  destruct (bool_decide (pkgcontroller.DeviceClassName claim ∈ dc)); simpl; [|reflexivity].
  unfold controller.IsDeviceClassRelevant.
  destruct (String.eqb (pkgcontroller.DeviceClassName claim) controller.driverName);
    simpl; [|reflexivity].
  destruct (sl !! controller.getResourceSliceName (pkgcontroller.Claim claim)) eqn:Hs.
  - rewrite bool_decide_eq_false_2 by congruence. reflexivity.
  - rewrite bool_decide_eq_true_2 by reflexivity. reflexivity.
Qed.

(** What [delete] does with a claim. *)
Lemma delete_sample (claim : pkgcontroller.ClaimObject) (s : pkgcontroller.Server) :
  pkgcontroller.delete sampleController (pkgcontroller.ResourceClaimObject claim) s =
  if controller.available (pkgcontroller.cluster s)
  then pkgcontroller.set_cluster
         {| controller.ResourceSlices := delete (sliceNameOf claim) (slicesOf s);
            controller.available := true |} s
  else s.
Proof.
  unfold pkgcontroller.delete. simpl. rewrite Delete_eq.
  destruct s as [[sl av] dc]. simpl. destruct av; reflexivity.
Qed.

Lemma delete_claimDeleted (obj : pkgcontroller.Object) (s : pkgcontroller.Server) :
  pkgcontroller.delete sampleController obj s =
  match claimDeleted obj with
  | Some claim =>
      pkgcontroller.delete sampleController (pkgcontroller.ResourceClaimObject claim) s
  | None => s
  end.
Proof. destruct obj as [claim|key [claim|key' obj'|ty]|ty]; reflexivity. Qed.

Lemma addOrUpdate_claimAdded (obj : pkgcontroller.Object) (s : pkgcontroller.Server) :
  pkgcontroller.addOrUpdate sampleController obj s =
  match claimAdded obj with
  | Some claim =>
      pkgcontroller.addOrUpdate sampleController (pkgcontroller.ResourceClaimObject claim) s
  | None => s
  end.
Proof. destruct obj; reflexivity. Qed.

(** X3. An add (or update) event followed by the delete event of the same
    object gives back the server as it was, provided the slice of the claim
    did not exist before; whether the server answers, the claim is allocated
    or its device class is the driver's does not matter. *)
Theorem addOrUpdate_then_delete_restores
    (obj : pkgcontroller.Object) (s : pkgcontroller.Server) :
  (forall claim, claimDeleted obj = Some claim -> slicesOf s !! sliceNameOf claim = None) ->
  pkgcontroller.delete sampleController obj
    (pkgcontroller.addOrUpdate sampleController obj s) = s.
Proof.
  intros Habs.
  destruct obj as [claim|key [claim|key' obj'|ty]|ty]; try reflexivity.
  - specialize (Habs claim eq_refl).
    rewrite addOrUpdate_sample, delete_sample.
    destruct (creates claim s) eqn:Hc.
    + simpl. destruct s as [[sl av] dc]. unfold slicesOf in *. simpl in *.
      unfold creates in Hc. simpl in Hc. rewrite !andb_true_iff in Hc.
      destruct Hc as ((((Hav & _) & _) & _) & _). subst av.
      unfold pkgcontroller.set_cluster. simpl. do 2 f_equal.
      rewrite delete_insert_eq. apply delete_id, Habs.
    + destruct s as [[sl av] dc]. unfold slicesOf in *. simpl in *.
      destruct av; [|reflexivity].
      unfold pkgcontroller.set_cluster. simpl. do 2 f_equal. apply delete_id, Habs.
  - specialize (Habs claim eq_refl).
    change (pkgcontroller.delete sampleController (pkgcontroller.ResourceClaimObject claim) s
            = s).
    rewrite delete_sample.
    destruct s as [[sl av] dc]. unfold slicesOf in *. simpl in *.
    destruct av; [|reflexivity].
    unfold pkgcontroller.set_cluster. simpl. do 2 f_equal. apply delete_id, Habs.
Qed.

Lemma addOrUpdate_then_delete_restores_witness :
  slicesOf (pkgcontroller.addOrUpdate sampleController
              (pkgcontroller.ResourceClaimObject gpu_claim) empty_server)
    !! "sample-controller-7f3c" = Some (sampleSlice gpu_claim) /\
  pkgcontroller.delete sampleController (pkgcontroller.ResourceClaimObject gpu_claim)
    (pkgcontroller.addOrUpdate sampleController
       (pkgcontroller.ResourceClaimObject gpu_claim) empty_server) = empty_server.
Proof.
  split; [vm_compute; reflexivity|].
  apply (addOrUpdate_then_delete_restores
           (pkgcontroller.ResourceClaimObject gpu_claim) empty_server).
  intros claim Hclaim. injection Hclaim as <-. vm_compute. reflexivity.
Defined.

(** X4. Handling the same add or update event again changes nothing: the
    second [Create] finds the slice and its already-exists error is only
    logged. *)
Theorem addOrUpdate_is_idempotent (obj : pkgcontroller.Object) (s : pkgcontroller.Server) :
  pkgcontroller.addOrUpdate sampleController obj
    (pkgcontroller.addOrUpdate sampleController obj s) =
  pkgcontroller.addOrUpdate sampleController obj s.
Proof.
  rewrite !(addOrUpdate_claimAdded obj).
  destruct (claimAdded obj) as [claim|]; [|reflexivity].
  rewrite (addOrUpdate_sample claim s).
  destruct (creates claim s) eqn:Hc; [|rewrite addOrUpdate_sample, Hc; reflexivity].
  rewrite addOrUpdate_sample.
  replace (creates claim _) with false; [reflexivity|].
  symmetry. unfold creates, slicesOf. simpl.
  rewrite lookup_insert_eq, (bool_decide_eq_false_2 (Some _ = None)) by discriminate.
  apply andb_false_r.
Qed.

(** The effect of [addOrUpdate] on the store. *)
Lemma addOrUpdate_effect (obj : pkgcontroller.Object) (s : pkgcontroller.Server) :
  (forall n x, slicesOf s !! n = Some x ->
     slicesOf (pkgcontroller.addOrUpdate sampleController obj s) !! n = Some x) /\
  (forall n y,
     slicesOf (pkgcontroller.addOrUpdate sampleController obj s) !! n = Some y ->
     slicesOf s !! n = Some y \/
     exists claim, claimAdded obj = Some claim /\ creates claim s = true /\
                   n = sliceNameOf claim /\ y = sampleSlice claim) /\
  pkgcontroller.deviceClasses (pkgcontroller.addOrUpdate sampleController obj s) =
    pkgcontroller.deviceClasses s.
Proof.
  rewrite addOrUpdate_claimAdded.
  destruct (claimAdded obj) as [claim|]; [|auto].
  rewrite addOrUpdate_sample. destruct (creates claim s) eqn:Hc; [|auto].
  unfold slicesOf at 2 4. simpl. repeat split.
  - intros n x Hn. destruct (decide (n = sliceNameOf claim)) as [->|Hne].
    + unfold creates in Hc. rewrite !andb_true_iff in Hc. destruct Hc as [_ Habs].
      apply bool_decide_eq_true in Habs. congruence.
    + rewrite lookup_insert_ne by congruence. exact Hn.
  - intros n y Hn. destruct (decide (n = sliceNameOf claim)) as [->|Hne].
    + rewrite lookup_insert_eq in Hn. injection Hn as <-. right. eauto.
    + rewrite lookup_insert_ne in Hn by congruence. left. exact Hn.
Qed.


(** X5. [addOrUpdate] creates, and only creates. If the object is a claim,
    the server answers, the claim is allocated, its device class exists and
    is the driver's, and no slice has the claim's slice name, then afterwards
    the sample slice of the claim is stored under that name; in every other
    case the server is left exactly as it was. A slice that exists is neither
    replaced nor changed, also when the event is the update of a claim; a
    slice that exists afterwards was there before or is the one just created.
    The device classes are left alone. *)
Theorem addOrUpdate_only_creates (obj : pkgcontroller.Object) (s : pkgcontroller.Server) :
  (forall claim, claimAdded obj = Some claim -> creates claim s = true ->
     slicesOf (pkgcontroller.addOrUpdate sampleController obj s) !! sliceNameOf claim
       = Some (sampleSlice claim)) /\
  ((forall claim, claimAdded obj = Some claim -> creates claim s = false) ->
   pkgcontroller.addOrUpdate sampleController obj s = s) /\
  (forall n x, slicesOf s !! n = Some x ->
     slicesOf (pkgcontroller.addOrUpdate sampleController obj s) !! n = Some x) /\
  (forall n y,
     slicesOf (pkgcontroller.addOrUpdate sampleController obj s) !! n = Some y ->
     slicesOf s !! n = Some y \/
     exists claim, claimAdded obj = Some claim /\ creates claim s = true /\
                   n = sliceNameOf claim /\ y = sampleSlice claim) /\
  pkgcontroller.deviceClasses (pkgcontroller.addOrUpdate sampleController obj s) =
    pkgcontroller.deviceClasses s.
Proof.
  split; [|split; [|apply addOrUpdate_effect]].
  - intros claim Hobj Hc. rewrite addOrUpdate_claimAdded, Hobj, addOrUpdate_sample, Hc.
    unfold slicesOf at 1. simpl. apply lookup_insert_eq.
  - intros Hnone. rewrite addOrUpdate_claimAdded.
    destruct (claimAdded obj) as [claim|]; [|reflexivity].
    rewrite addOrUpdate_sample, (Hnone claim eq_refl). reflexivity.
Qed.

Lemma addOrUpdate_only_creates_witness :
  slicesOf (pkgcontroller.addOrUpdate sampleController
              (pkgcontroller.ResourceClaimObject gpu_claim) empty_server)
    !! "sample-controller-7f3c" = Some (sampleSlice gpu_claim) /\
  slicesOf (pkgcontroller.addOrUpdate sampleController
              (pkgcontroller.ResourceClaimObject other_gpu_claim)
              (pkgcontroller.addOrUpdate sampleController
                 (pkgcontroller.ResourceClaimObject gpu_claim) empty_server))
    !! "sample-controller-7f3c" = Some (sampleSlice gpu_claim).
Proof.
  split.
  - apply (proj1 (addOrUpdate_only_creates
                    (pkgcontroller.ResourceClaimObject gpu_claim) empty_server)
             gpu_claim eq_refl).
    vm_compute. reflexivity.
  - apply (proj1 (proj2 (proj2 (addOrUpdate_only_creates
                    (pkgcontroller.ResourceClaimObject other_gpu_claim)
                    (pkgcontroller.addOrUpdate sampleController
                       (pkgcontroller.ResourceClaimObject gpu_claim) empty_server))))).
    vm_compute. reflexivity.
Defined.

Lemma delete_removes_the_claims_slice_frame
    (obj : pkgcontroller.Object) (s : pkgcontroller.Server) (n : string) :
  (forall claim, claimDeleted obj = Some claim -> n <> sliceNameOf claim) ->
  slicesOf (pkgcontroller.delete sampleController obj s) !! n = slicesOf s !! n.
Proof.
  intros Hn. rewrite delete_claimDeleted.
  destruct (claimDeleted obj) as [claim|]; [|reflexivity].
  specialize (Hn claim eq_refl). rewrite delete_sample.
  destruct (controller.available (pkgcontroller.cluster s)); [|reflexivity].
  unfold slicesOf at 1. simpl. apply lookup_delete_ne. congruence.
Qed.

(** X6. A delete event removes the slice of its claim whether the informer
    hands over the claim or a tombstone holding it, as long as the server
    answers; it touches no other slice, and objects that hold no claim leave
    the server as it is. *)
Theorem delete_removes_the_claims_slice
    (obj : pkgcontroller.Object) (s : pkgcontroller.Server) :
  (forall claim, claimDeleted obj = Some claim ->
     controller.available (pkgcontroller.cluster s) = true ->
     slicesOf (pkgcontroller.delete sampleController obj s) !! sliceNameOf claim = None) /\
  (forall n, (forall claim, claimDeleted obj = Some claim -> n <> sliceNameOf claim) ->
     slicesOf (pkgcontroller.delete sampleController obj s) !! n = slicesOf s !! n) /\
  (claimDeleted obj = None -> pkgcontroller.delete sampleController obj s = s).
Proof.
  rewrite delete_claimDeleted.
  destruct (claimDeleted obj) as [claim|]; [|repeat split; congruence].
  rewrite delete_sample. repeat split.
  - intros claim' Hclaim Hav. injection Hclaim as <-. rewrite Hav.
    unfold slicesOf at 1. simpl. apply lookup_delete_eq.
  - intros n Hn. specialize (Hn claim eq_refl).
    destruct (controller.available (pkgcontroller.cluster s)); [|reflexivity].
    unfold slicesOf at 1. simpl. apply lookup_delete_ne. congruence.
  - discriminate.
Qed.

Lemma delete_removes_the_claims_slice_witness :
  slicesOf (pkgcontroller.delete sampleController
              (pkgcontroller.DeletedFinalStateUnknown "default/claim-a"
                 (pkgcontroller.ResourceClaimObject gpu_claim))
              (pkgcontroller.addOrUpdate sampleController
                 (pkgcontroller.ResourceClaimObject gpu_claim) empty_server))
    !! sliceNameOf gpu_claim = None.
Proof.
  apply (proj1 (delete_removes_the_claims_slice
                  (pkgcontroller.DeletedFinalStateUnknown "default/claim-a"
                     (pkgcontroller.ResourceClaimObject gpu_claim))
                  (pkgcontroller.addOrUpdate sampleController
                     (pkgcontroller.ResourceClaimObject gpu_claim) empty_server))
           gpu_claim); reflexivity.
Defined.

(** ** Watches: sequences of events *)

Lemma handleAll_cons (ev : pkgcontroller.Event) (evs : list pkgcontroller.Event)
    (s : pkgcontroller.Server) :
  pkgcontroller.handleAll sampleController (ev :: evs) s =
  pkgcontroller.handleAll sampleController evs (pkgcontroller.handle sampleController ev s).
Proof. reflexivity. Qed.

Lemma delete_only_removes (obj : pkgcontroller.Object) (s : pkgcontroller.Server)
    (n : string) (y : controller.ResourceSlice) :
  slicesOf (pkgcontroller.delete sampleController obj s) !! n = Some y ->
  slicesOf s !! n = Some y.
Proof.
  rewrite delete_claimDeleted. destruct (claimDeleted obj) as [claim|]; [|auto].
  rewrite delete_sample.
  destruct (controller.available (pkgcontroller.cluster s)); [|auto].
  unfold slicesOf at 1. simpl. intros Hn. apply lookup_delete_Some in Hn. tauto.
Qed.

Lemma handle_deviceClasses (ev : pkgcontroller.Event) (s : pkgcontroller.Server) :
  pkgcontroller.deviceClasses (pkgcontroller.handle sampleController ev s) =
  pkgcontroller.deviceClasses s.
Proof.
  destruct ev as [obj|old obj|obj]; simpl.
  - apply addOrUpdate_effect.
  - apply addOrUpdate_effect.
  - rewrite delete_claimDeleted. destruct (claimDeleted obj); reflexivity.
Qed.

(** X7. Whatever events a watch delivers, in whatever order, every slice in
    the store afterwards was either there before, unchanged, or is the sample
    slice of a claim carried by one of the add or update events, stored under
    that claim's slice name. The device classes are never changed. *)
Theorem handleAll_slices_come_from_claims
    (evs : list pkgcontroller.Event) (s : pkgcontroller.Server) :
  pkgcontroller.deviceClasses (pkgcontroller.handleAll sampleController evs s) =
    pkgcontroller.deviceClasses s /\
  (forall n y,
     slicesOf (pkgcontroller.handleAll sampleController evs s) !! n = Some y ->
     slicesOf s !! n = Some y \/
     exists claim, claim ∈ claimsAdded evs /\ n = sliceNameOf claim /\
                   y = sampleSlice claim).
Proof.
  revert s. induction evs as [|ev evs IH]; intros s; [simpl; auto|].
  rewrite handleAll_cons. destruct (IH (pkgcontroller.handle sampleController ev s))
    as [Hdc Hsl].
  split; [rewrite Hdc; apply handle_deviceClasses|].
  intros n y Hn. destruct (Hsl n y Hn) as [Hprev | (claim & Hin & Hname & Hy)].
  - assert (Hstep : slicesOf s !! n = Some y \/
              exists claim, claimsAdded [ev] = [claim] /\ n = sliceNameOf claim /\
                            y = sampleSlice claim).
    { destruct ev as [obj|old obj|obj]; simpl in Hprev.
      - destruct (proj1 (proj2 (addOrUpdate_effect obj s)) n y Hprev)
          as [?|(claim & Hc & _ & ? & ?)]; [auto|].
        right. exists claim. simpl. rewrite Hc. auto.
      - destruct (proj1 (proj2 (addOrUpdate_effect obj s)) n y Hprev)
          as [?|(claim & Hc & _ & ? & ?)]; [auto|].
        right. exists claim. simpl. rewrite Hc. auto.
      - left. eapply delete_only_removes; eauto. }
    destruct Hstep as [?|(claim & Hc & ? & ?)]; [auto|].
    right. exists claim. split; [|auto].
    change (ev :: evs) with ([ev] ++ evs)%list. unfold claimsAdded in *.
    rewrite omap_app, Hc. apply elem_of_app. left. apply list_elem_of_here.
  - right. exists claim. split; [|auto].
    change (ev :: evs) with ([ev] ++ evs)%list. unfold claimsAdded in *.
    rewrite omap_app. apply elem_of_app. auto.
Qed.

(** X8. Slices whose names do not start with [sample-controller-] are out
    of the controller's reach: no sequence of events removes, adds or changes
    one. *)
Theorem handleAll_keeps_foreign_slices
    (evs : list pkgcontroller.Event) (s : pkgcontroller.Server) (n : string) :
  HasPrefix n "sample-controller-" = false ->
  slicesOf (pkgcontroller.handleAll sampleController evs s) !! n = slicesOf s !! n.
Proof.
  intros Hn. revert s. induction evs as [|ev evs IH]; intros s; [reflexivity|].
  rewrite handleAll_cons, IH.
  assert (Hne : forall claim, n <> sliceNameOf claim).
  { intros claim ->. unfold sliceNameOf in Hn. rewrite sliceName_prefix in Hn.
    discriminate. }
  assert (Hadd : forall obj,
            slicesOf (pkgcontroller.addOrUpdate sampleController obj s) !! n
            = slicesOf s !! n).
  { intros obj. rewrite addOrUpdate_claimAdded.
    destruct (claimAdded obj) as [claim|]; [|reflexivity].
    rewrite addOrUpdate_sample. destruct (creates claim s); [|reflexivity].
    unfold slicesOf at 1. simpl. apply lookup_insert_ne. specialize (Hne claim).
    congruence. }
  destruct ev as [obj|old obj|obj]; simpl; [apply Hadd | apply Hadd |].
  apply delete_removes_the_claims_slice_frame. intros claim _. apply Hne.
Qed.

Lemma handleAll_slices_come_from_claims_witness :
  slicesOf (pkgcontroller.handleAll sampleController watch_events server_with_foreign_slice)
    !! "sample-controller-7f3c" = Some (sampleSlice gpu_claim) /\
  (slicesOf server_with_foreign_slice !! "sample-controller-7f3c" = Some (sampleSlice gpu_claim)
   \/ exists claim, claim ∈ claimsAdded watch_events /\
                    "sample-controller-7f3c" = sliceNameOf claim /\
                    sampleSlice gpu_claim = sampleSlice claim).
Proof.
  split; [vm_compute; reflexivity|].
  apply (proj2 (handleAll_slices_come_from_claims watch_events server_with_foreign_slice)).
  vm_compute. reflexivity.
Defined.

Lemma handleAll_keeps_foreign_slices_witness :
  slicesOf (pkgcontroller.handleAll sampleController watch_events server_with_foreign_slice)
    !! "node0-hostdevice" =
  slicesOf server_with_foreign_slice !! "node0-hostdevice".
Proof.
  apply (handleAll_keeps_foreign_slices watch_events server_with_foreign_slice
           "node0-hostdevice").
  vm_compute. reflexivity.
Defined.

(** ** The node agent over sequences of calls *)

Lemma performAll_snoc {D : Type} `{Driver D} (drv : D) (calls : list DriverCall)
    (op : DriverCall) (w : World) :
  performAll drv (calls ++ [op])%list w = perform drv op (performAll drv calls w).
Proof. unfold performAll. rewrite fold_left_app. reflexivity. Qed.

Lemma lastWritten_snoc (calls : list DriverCall) (op : DriverCall) :
  lastWritten (calls ++ [op])%list =
  match written op with Some d => Some d | None => lastWritten calls end.
Proof. unfold lastWritten. rewrite fold_left_app. reflexivity. Qed.

(** One call of the node agent. *)
Lemma nodeagent_perform (op : DriverCall) (w : World) :
  kernel (perform nodeagent.NewDriver op w) = kernel w /\
  shared (perform nodeagent.NewDriver op w) = shared w /\
  readonly (perform nodeagent.NewDriver op w) = readonly w /\
  files (perform nodeagent.NewDriver op w) =
    match written op with
    | Some d => if readonly w then files w else <[nodeagent.resourceFile := d]> (files w)
    | None => files w
    end /\
  exists ops, trace (perform nodeagent.NewDriver op w) = (trace w ++ ops)%list /\
              Forall (fun s => is_file_op s = true) ops.
Proof.
  destruct op as [|claim|claim|device ns pod data|device ns pod data]; simpl.
  - unfold nodeagent.GetDevices, Stat.
    destruct (stat_eio w); [|destruct (files w !! nodeagent.resourceFile)];
      simpl; repeat split; (eexists; split; [reflexivity|]; repeat constructor).
  - unfold nodeagent.PrepareDevice, bind_wrap, WriteFile.
    destruct (readonly w) eqn:Hro; simpl; rewrite ?Hro; repeat split;
      (eexists; split; [reflexivity|]; repeat constructor).
  - unfold nodeagent.UnprepareDevice, WriteFile.
    destruct (readonly w) eqn:Hro; simpl; rewrite ?Hro; repeat split;
      (eexists; split; [reflexivity|]; repeat constructor).
  - repeat split. exists []. rewrite app_nil_r. split; [reflexivity|constructor].
  - repeat split. exists []. rewrite app_nil_r. split; [reflexivity|constructor].
Qed.

Lemma nodeagent_performAll_frame (calls : list DriverCall) (w : World) :
  kernel (performAll nodeagent.NewDriver calls w) = kernel w /\
  shared (performAll nodeagent.NewDriver calls w) = shared w /\
  readonly (performAll nodeagent.NewDriver calls w) = readonly w /\
  exists ops, trace (performAll nodeagent.NewDriver calls w) = (trace w ++ ops)%list /\
              Forall (fun s => is_file_op s = true) ops.
Proof.
  induction calls as [|op calls IH] using rev_ind.
  - simpl. repeat split. exists []. rewrite app_nil_r. split; [reflexivity|constructor].
  - rewrite performAll_snoc.
    destruct IH as (Hk & Hs & Hr & ops & Ht & Hops).
    destruct (nodeagent_perform op (performAll nodeagent.NewDriver calls w))
      as (Hk' & Hs' & Hr' & _ & ops' & Ht' & Hops').
    repeat split; try congruence.
    exists (ops ++ ops')%list. split.
    + rewrite Ht', Ht, app_assoc. reflexivity.
    + apply Forall_app. auto.
Qed.

Lemma nodeagent_performAll_files (calls : list DriverCall) (w : World) :
  readonly w = false ->
  files (performAll nodeagent.NewDriver calls w) =
  match lastWritten calls with
  | Some d => <[nodeagent.resourceFile := d]> (files w)
  | None => files w
  end.
Proof.
  intros Hro. induction calls as [|op calls IH] using rev_ind; [reflexivity|].
  rewrite performAll_snoc, lastWritten_snoc.
  destruct (nodeagent_perform op (performAll nodeagent.NewDriver calls w))
    as (_ & _ & _ & Hf & _).
  destruct (nodeagent_performAll_frame calls w) as (_ & _ & Hr & _).
  rewrite Hf, Hr, Hro, IH.
  destruct (written op); [|reflexivity].
  destruct (lastWritten calls); [apply insert_insert_eq | reflexivity].
Qed.

(** X9. On a node that accepts writes, after any sequence of calls of the
    node agent the resource file holds what the last [PrepareDevice] or
    [UnprepareDevice] of the sequence wrote, whichever claim it was for: a
    later prepare overwrites the UID of an earlier one, and an unprepare
    empties the file even when another claim's UID is in it. No other file
    is written. *)
Theorem nodeagent_last_write_wins (calls : list DriverCall) (w : World) :
  readonly w = false ->
  files (performAll nodeagent.NewDriver calls w) =
    match lastWritten calls with
    | Some d => <[nodeagent.resourceFile := d]> (files w)
    | None => files w
    end /\
  (forall a b : resourceapi.ResourceClaim,
     files (performAll nodeagent.NewDriver [CallPrepareDevice a; CallPrepareDevice b] w)
       !! nodeagent.resourceFile = Some (metav1.UID (resourceapi.Meta b))) /\
  (forall (a : resourceapi.ResourceClaim) (b : kubeletplugin.NamespacedObject),
     files (performAll nodeagent.NewDriver [CallPrepareDevice a; CallUnprepareDevice b] w)
       !! nodeagent.resourceFile = Some EmptyString).
Proof.
  intros Hro. split; [apply nodeagent_performAll_files, Hro|].
  split; intros a b; rewrite nodeagent_performAll_files by exact Hro;
    apply lookup_insert_eq.
Qed.

Lemma nodeagent_last_write_wins_witness :
  files (performAll nodeagent.NewDriver agent_calls fresh_node)
    !! nodeagent.resourceFile = Some EmptyString /\
  files (performAll nodeagent.NewDriver
           [CallPrepareDevice claim_eth1;
            CallPrepareDevice (pkgcontroller.Claim other_gpu_claim)] fresh_node)
    !! nodeagent.resourceFile = Some "90ab".
Proof.
  split.
  - rewrite (proj1 (nodeagent_last_write_wins agent_calls fresh_node eq_refl)).
    reflexivity.
  - apply (proj1 (proj2 (nodeagent_last_write_wins agent_calls fresh_node eq_refl))
             claim_eth1 (pkgcontroller.Claim other_gpu_claim)).
Defined.

Lemma nodeagent_GetDevices_result (w : World) :
  snd (nodeagent.GetDevices nodeagent.NewDriver w) =
  Ok (if stat_eio w then [nodeagent.specialResource]
      else match files w !! nodeagent.resourceFile with
           | Some _ => [nodeagent.specialResource]
           | None => []
           end).
Proof.
  unfold nodeagent.GetDevices, Stat.
  destruct (stat_eio w); [reflexivity|].
  destruct (files w !! nodeagent.resourceFile); reflexivity.
Qed.

(** X10. [GetDevices] of the node agent never reports an error, and it
    withholds [special-resource-0] only when the stat of the resource file
    answers that the file does not exist: the resource is advertised while
    the file exists, and also when the stat fails for another reason, with an
    I/O error. No call removes the file: once it exists, and on a node that
    accepts writes after the first prepare or unprepare, the resource is
    advertised after every further sequence of calls, also right after an
    [UnprepareDevice]. *)
Theorem nodeagent_advertises_while_file_exists (calls : list DriverCall) (w : World) :
  snd (nodeagent.GetDevices nodeagent.NewDriver w) =
    Ok (if stat_eio w then [nodeagent.specialResource]
        else match files w !! nodeagent.resourceFile with
             | Some _ => [nodeagent.specialResource]
             | None => []
             end) /\
  (snd (nodeagent.GetDevices nodeagent.NewDriver w) = Ok [] <->
   stat_eio w = false /\ files w !! nodeagent.resourceFile = None) /\
  (is_Some (files w !! nodeagent.resourceFile) ->
   snd (nodeagent.GetDevices nodeagent.NewDriver
          (performAll nodeagent.NewDriver calls w)) = Ok [nodeagent.specialResource]) /\
  (readonly w = false -> is_Some (lastWritten calls) ->
   snd (nodeagent.GetDevices nodeagent.NewDriver
          (performAll nodeagent.NewDriver calls w)) = Ok [nodeagent.specialResource]).
Proof.
  split; [apply nodeagent_GetDevices_result|].
  split.
  { rewrite nodeagent_GetDevices_result.
    destruct (stat_eio w); [split; [discriminate | intros [? _]; discriminate]|].
    destruct (files w !! nodeagent.resourceFile);
      split; try discriminate; auto; intros [_ ?]; discriminate. }
  assert (Hkeep : is_Some (files w !! nodeagent.resourceFile) ->
                  is_Some (files (performAll nodeagent.NewDriver calls w)
                             !! nodeagent.resourceFile)).
  { intros Hex. induction calls as [|op calls IH] using rev_ind; [exact Hex|].
    rewrite performAll_snoc.
    destruct (nodeagent_perform op (performAll nodeagent.NewDriver calls w))
      as (_ & _ & _ & Hf & _).
    rewrite Hf. destruct (written op); [|exact IH].
    destruct (readonly _); [exact IH|]. rewrite lookup_insert_eq. eauto. }
  split.
  - intros Hex. rewrite nodeagent_GetDevices_result.
    destruct (Hkeep Hex) as [x ->]. destruct (stat_eio _); reflexivity.
  - intros Hro [d Hd]. rewrite nodeagent_GetDevices_result.
    rewrite nodeagent_performAll_files, Hd, lookup_insert_eq by exact Hro.
    destruct (stat_eio _); reflexivity.
Qed.

Lemma nodeagent_advertises_while_file_exists_witness :
  snd (nodeagent.GetDevices nodeagent.NewDriver fresh_node) = Ok [] /\
  snd (nodeagent.GetDevices nodeagent.NewDriver stat_failing_node)
    = Ok [nodeagent.specialResource] /\
  snd (nodeagent.GetDevices nodeagent.NewDriver
         (performAll nodeagent.NewDriver agent_calls fresh_node))
    = Ok [nodeagent.specialResource].
Proof.
  split; [|split].
  - exact (proj1 (nodeagent_advertises_while_file_exists [] fresh_node)).
  - exact (proj1 (nodeagent_advertises_while_file_exists [] stat_failing_node)).
  - apply (proj2 (proj2 (proj2
             (nodeagent_advertises_while_file_exists agent_calls fresh_node))));
      [reflexivity | vm_compute; eauto].
Defined.

Lemma issued_none (p : Syscall -> bool) (w w' : World) (ops : list Syscall) :
  trace w' = (trace w ++ ops)%list ->
  Forall (fun s => p s = false) ops ->
  issued p w w' = 0%nat.
Proof.
  intros Ht Hops. unfold issued. rewrite Ht, filter_app, length_app.
  replace (filter (fun s => p s = true) ops) with (@nil Syscall); [simpl; lia|].
  symmetry. clear Ht. induction Hops as [|s ops Hs Hops IH]; [reflexivity|].
  rewrite filter_cons, decide_False by congruence. exact IH.
Qed.

(** X11. The node agent never touches the network: whatever sequence of its
    methods runs, the sandbox hooks included, the kernel and the plugin's
    table are as before, and every operation issued is a file operation, none
    a namespace operation. *)
Theorem nodeagent_never_touches_the_network (calls : list DriverCall) (w : World) :
  kernel (performAll nodeagent.NewDriver calls w) = kernel w /\
  shared (performAll nodeagent.NewDriver calls w) = shared w /\
  issued is_namespace_op w (performAll nodeagent.NewDriver calls w) = 0%nat /\
  exists ops, trace (performAll nodeagent.NewDriver calls w) = (trace w ++ ops)%list /\
              Forall (fun s => is_file_op s = true) ops.
Proof.
  destruct (nodeagent_performAll_frame calls w) as (Hk & Hs & _ & ops & Ht & Hops).
  repeat split; [exact Hk | exact Hs | | eauto].
  apply (issued_none _ _ _ ops Ht).
  eapply Forall_impl; [exact Hops|]. intros s Hs'. destruct s; simpl in *; congruence.
Qed.

(** ** The host-device driver: what it reports and what it leaves alone *)

Lemma NoDup_map_filter {A B : Type} (f : A -> B) (P : A -> Prop)
    `{forall x, Decision (P x)} (l : list A) :
  NoDup (map f l) -> NoDup (map f (filter P l)).
Proof.
  induction l as [|x l IH]; simpl; [auto|].
  intros Hnd. apply NoDup_cons in Hnd as [Hx Hl].
  rewrite filter_cons. destruct (decide (P x)); [|auto].
  simpl. apply NoDup_cons. split; [|auto].
  intros Hin. apply Hx. apply list_elem_of_In, in_map_iff.
  apply list_elem_of_In, in_map_iff in Hin as (y & Hfy & Hy).
  exists y. split; [exact Hfy|].
  apply list_elem_of_In. apply list_elem_of_In, list_elem_of_filter in Hy. tauto.
Qed.

Lemma host_links_names (w : World) :
  map (fun l => Name (Attrs l)) (host_links w) = map fst (map_to_list (host (kernel w))).
Proof. unfold host_links. rewrite map_map. reflexivity. Qed.

(** X12. The devices that [GetDevices] returns have pairwise different
    names, each carries its own name as the attribute [interface-name] and
    the printed hardware address of its link as [mac-address], and there are
    no more of them than the host has links. *)
Theorem GetDevices_names_are_distinct (w : World) (devices : list resourceapi.Device) :
  snd (hostdevice.GetDevices hostdevice.NewDriver w) = Ok devices ->
  NoDup (map resourceapi.Name devices) /\
  Forall (fun d =>
            resourceapi.Attributes d !! "interface-name" =
              Some (resourceapi.stringAttribute (resourceapi.Name d)) /\
            exists l, l ∈ host_links w /\ resourceapi.Name d = Name (Attrs l) /\
                      resourceapi.Attributes d !! "mac-address" =
                        Some (resourceapi.stringAttribute
                                (HardwareAddr_String (HardwareAddr (Attrs l)))))
         devices /\
  (length devices <= size (host (kernel w)))%nat.
Proof.
  unfold hostdevice.GetDevices, bind_wrap, LinkList, ret.
  destruct (rtnl_ok (kernel w)); simpl; [|discriminate].
  intros Hd. injection Hd as <-. rewrite discover_filter. simpl.
  fold (host_links w). repeat split.
  - rewrite map_map. simpl.
    apply (NoDup_map_filter (fun l => Name (Attrs l))).
    rewrite host_links_names. exact (NoDup_fst_map_to_list (host (kernel w))).
  - apply Forall_forall. intros d Hin.
    apply list_elem_of_In, in_map_iff in Hin as (l & <- & Hl).
    apply list_elem_of_In, list_elem_of_filter in Hl as [_ Hl]. split; [reflexivity|].
    exists l. split; [exact Hl|]. split; reflexivity.
  - rewrite length_map. etransitivity; [apply length_filter|].
    unfold host_links. rewrite length_map, length_map_to_list. reflexivity.
Qed.

Lemma GetDevices_names_are_distinct_witness :
  NoDup (map resourceapi.Name
           [hostdevice.device (Attrs (link_of "eth1" (plain_device 3 up_flags [2; 66; 172; 17; 0; 3])));
            hostdevice.device (Attrs (link_of "eth2" (plain_device 4 up_flags [2; 66; 172; 17; 0; 4])))]).
Proof.
  apply (GetDevices_names_are_distinct host_with_eth1). vm_compute. reflexivity.
Defined.

(** One call of the allocation side of the host-device driver. *)
Lemma hostdevice_perform_allocation (op : DriverCall) (w : World) :
  is_hook op = false ->
  perform hostdevice.NewDriver op w = w \/
  perform hostdevice.NewDriver op w = log RtnlGetLinks w.
Proof.
  destruct op as [|claim|claim|device ns pod data|device ns pod data]; simpl;
    try discriminate; intros _.
  - right. unfold hostdevice.GetDevices, bind_wrap, LinkList.
    destruct (rtnl_ok (kernel w)); reflexivity.
  - left. rewrite hostdevice_PrepareDevice_eq. reflexivity.
  - left. reflexivity.
Qed.

(** X13. Outside the sandbox hooks the host-device driver changes nothing:
    after any sequence of [GetDevices], [PrepareDevice] and [UnprepareDevice]
    calls the kernel, the files and the plugin's table are as before, and the
    only operation ever issued is the listing of the links. In particular
    [PrepareDevice] does not look at the host: its result is the same on
    every node, whether or not the named device exists there. *)
Theorem hostdevice_allocation_side_is_read_only (calls : list DriverCall) (w : World) :
  Forall (fun op => is_hook op = false) calls ->
  kernel (performAll hostdevice.NewDriver calls w) = kernel w /\
  files (performAll hostdevice.NewDriver calls w) = files w /\
  shared (performAll hostdevice.NewDriver calls w) = shared w /\
  (exists n, trace (performAll hostdevice.NewDriver calls w) =
             (trace w ++ replicate n RtnlGetLinks)%list) /\
  (forall claim w', snd (hostdevice.PrepareDevice hostdevice.NewDriver claim w') =
                    snd (hostdevice.PrepareDevice hostdevice.NewDriver claim w)).
Proof.
  intros Hcalls.
  assert (Hrun : kernel (performAll hostdevice.NewDriver calls w) = kernel w /\
                 files (performAll hostdevice.NewDriver calls w) = files w /\
                 shared (performAll hostdevice.NewDriver calls w) = shared w /\
                 exists n, trace (performAll hostdevice.NewDriver calls w) =
                           (trace w ++ replicate n RtnlGetLinks)%list).
  { induction calls as [|op calls IH] using rev_ind.
    - simpl. repeat split. exists 0%nat. simpl. rewrite app_nil_r. reflexivity.
    - apply Forall_app in Hcalls as [Hcalls Hop].
      apply Forall_cons in Hop as [Hop _].
      destruct (IH Hcalls) as (Hk & Hf & Hs & n & Ht).
      rewrite performAll_snoc.
      destruct (hostdevice_perform_allocation op
                  (performAll hostdevice.NewDriver calls w) Hop) as [-> | ->].
      + repeat split; eauto.
      + simpl. repeat split; auto.
        exists (S n). rewrite Ht, <- app_assoc. f_equal.
        change (RtnlGetLinks :: replicate n RtnlGetLinks) with (replicate (S n) RtnlGetLinks).
        rewrite replicate_S_end. reflexivity. }
  destruct Hrun as (Hk & Hf & Hs & Ht). repeat split; auto.
  intros claim w'. rewrite !hostdevice_PrepareDevice_eq. reflexivity.
Qed.

Lemma hostdevice_allocation_side_is_read_only_witness :
  kernel (performAll hostdevice.NewDriver allocation_calls host_with_eth1)
    = kernel host_with_eth1 /\
  trace (performAll hostdevice.NewDriver allocation_calls host_with_eth1)
    = [RtnlGetLinks; RtnlGetLinks].
Proof.
  split; [|vm_compute; reflexivity].
  apply (hostdevice_allocation_side_is_read_only allocation_calls host_with_eth1).
  repeat constructor.
Defined.

(** ** Sub-interfaces: the order of the operations *)

Lemma LinkAdd_frame (l : Link) (w : World) :
  trace (fst (LinkAdd l w)) =
    (trace w ++ [RtnlNewLink (Name (Attrs l)) (Type_ l) (ParentIndex (Attrs l))
                   (NetNsID (Attrs l))])%list /\
  files (fst (LinkAdd l w)) = files w /\
  shared (fst (LinkAdd l w)) = shared w.
Proof.
  unfold LinkAdd.
  repeat match goal with
         | |- context [if ?b then _ else _] => destruct b
         | |- context [match ?o with Some _ => _ | None => _ end] => destruct o
         end; simpl; auto.
Qed.

(** Both functions have the shape below, up to the name, the kind and the
    wording of the last message. *)
Lemma create_slave_stages (path dev name word : string) (k : LinkType) (w : World) :
  subinterface_stages
    ((call containerNs := netns.GetFromPath path
        onerr (fun err => "could not get network namespace from path " +:+ path
                          +:+ " for network device " +:+ dev +:+ " : " +:+ err) in
      call parentLink := LinkByName dev
        onerr (fun err => "could not find parent interface " +:+ dev +:+ " : " +:+ err) in
      call _ := LinkAdd {| Attrs := kndnet.attrs_named name (Index (Attrs parentLink))
                                      containerNs;
                           Type_ := k |}
        onerr (fun err => "failed to create the " +:+ name +:+ " " +:+ word
                          +:+ " interface: " +:+ err) in
      ret tt) w)
    w path dev name k word.
Proof.
  unfold subinterface_stages, bind_wrap, netns.GetFromPath, LinkByName, ret.
  destruct (nspath (kernel w) !! path) as [ns|] eqn:Hp; simpl.
  2: { repeat split; try reflexivity; intros; discriminate. }
  destruct (rtnl_ok (kernel w)) eqn:Hok; simpl.
  2: { repeat split; try reflexivity; intros; discriminate. }
  destruct (host (kernel w) !! dev) as [parent|] eqn:Hd; simpl.
  2: { repeat split; try reflexivity; intros; discriminate. }
  set (l := {| Attrs := kndnet.attrs_named name (ifindex parent) ns; Type_ := k |}).
  set (w1 := log (RtnlGetLink dev) (log (NetnsOpen path) w)).
  destruct (LinkAdd_frame l w1) as (Ht & Hf & Hs).
  pose proof (LinkAdd_cases l w1) as Hcases.
  destruct (LinkAdd l w1) as [w2 [[]|e]]; simpl in *;
    (split; [intros; discriminate|]);
    (split; [intros ns' _ [?|?]; discriminate|]);
    (split; [|auto]);
    intros ns' parent' Hns' _ Hparent; injection Hns' as <-; injection Hparent as <-;
    (split; [rewrite Ht, <- !app_assoc; reflexivity|]).
  - left. reflexivity.
  - right. exists e. split; [reflexivity|].
    destruct Hcases as [(e' & _ & Hk) | (Hr & _)]; [exact Hk | discriminate].
Qed.

(** X14. [addMacVlan] and [addIPVlan] proceed in three stages and stop at
    the first that fails. If the namespace path does not resolve, only the
    path is opened and no netlink operation is issued. If the parent is not
    found, nothing is created. Otherwise exactly one link is requested, with
    the fixed name ([mavlan-] or [ipvaln-] followed by the parent's name), the
    parent's index and the handle of the namespace; if that request fails the
    kernel is unchanged. Each failure has its own message, and no file and
    no entry of the plugin's table is touched. *)
Theorem subinterface_creation_stages (path dev : string) (w : World) :
  (forall mode,
     subinterface_stages (kndnet.addMacVlan path dev mode w) w path dev
       ("mavlan-" +:+ dev) (Macvlan mode) "macvlan") /\
  (forall mode,
     subinterface_stages (kndnet.addIPVlan path dev mode w) w path dev
       ("ipvaln-" +:+ dev) (IPVlan mode) "ipvlan").
Proof.
  split; intros mode.
  - exact (create_slave_stages path dev ("mavlan-" +:+ dev) "macvlan" (Macvlan mode) w).
  - exact (create_slave_stages path dev ("ipvaln-" +:+ dev) "ipvlan" (IPVlan mode) w).
Qed.

Lemma subinterface_creation_stages_witness :
  kndnet.addMacVlan "/run/netns/pod-x" "eth1" MACVLAN_MODE_VEPA host_with_eth1 =
    (log (NetnsOpen "/run/netns/pod-x") host_with_eth1,
     Err ("could not get network namespace from path " +:+ "/run/netns/pod-x"
          +:+ " for network device " +:+ "eth1" +:+ " : " +:+ ENOENT)) /\
  trace (fst (kndnet.addIPVlan "/run/netns/pod-a" "eth1" IPVLAN_MODE_L2 host_with_eth1)) =
    [NetnsOpen "/run/netns/pod-a"; RtnlGetLink "eth1";
     RtnlNewLink "ipvaln-eth1" (IPVlan IPVLAN_MODE_L2) 3 7].
Proof.
  destruct (subinterface_creation_stages "/run/netns/pod-x" "eth1" host_with_eth1)
    as [Hmac _].
  destruct (subinterface_creation_stages "/run/netns/pod-a" "eth1" host_with_eth1)
    as [_ Hip].
  destruct (Hmac MACVLAN_MODE_VEPA) as (Hpath & _).
  destruct (Hip IPVLAN_MODE_L2) as (_ & _ & Hadd & _).
  split.
  - apply Hpath. vm_compute. reflexivity.
  - apply (Hadd 7 (plain_device 3 up_flags [2; 66; 172; 17; 0; 3]));
      vm_compute; reflexivity.
Defined.

(** ** Sub-interfaces: the length of the name *)

Lemma length_append (a b : string) :
  String.length (a +:+ b) = (String.length a + String.length b)%nat.
Proof. induction a as [|ch a IH]; simpl; [reflexivity | rewrite IH; reflexivity]. Qed.

Lemma LinkAdd_long_name (l : Link) (w : World) :
  rtnl_ok (kernel w) = true ->
  (IFNAMSIZ <= String.length (Name (Attrs l)))%nat ->
  LinkAdd l w =
  (log (RtnlNewLink (Name (Attrs l)) (Type_ l) (ParentIndex (Attrs l)) (NetNsID (Attrs l))) w,
   Err ERANGE).
Proof.
  intros Hok Hlen. unfold LinkAdd. cbv zeta. rewrite Hok. cbn [negb].
  apply Nat.leb_le in Hlen. rewrite Hlen. reflexivity.
Qed.

(** X15. A parent whose name has more than eight characters cannot get a
    sub-interface. [addMacVlan] and [addIPVlan] put [mavlan-] or [ipvaln-]
    before the parent's name and do not shorten the result, which then has
    more than the 15 characters an interface name may have: the kernel
    refuses the request as out of range, whatever the mode, and nothing is
    created. *)
Theorem subinterface_name_too_long (path dev : string) (w : World) :
  (8 < String.length dev)%nat ->
  rtnl_ok (kernel w) = true ->
  is_Some (nspath (kernel w) !! path) ->
  is_Some (host (kernel w) !! dev) ->
  (forall mode,
     snd (kndnet.addMacVlan path dev mode w) =
       Err ("failed to create the " +:+ ("mavlan-" +:+ dev) +:+ " macvlan interface: "
            +:+ ERANGE) /\
     kernel (fst (kndnet.addMacVlan path dev mode w)) = kernel w) /\
  (forall mode,
     snd (kndnet.addIPVlan path dev mode w) =
       Err ("failed to create the " +:+ ("ipvaln-" +:+ dev) +:+ " ipvlan interface: "
            +:+ ERANGE) /\
     kernel (fst (kndnet.addIPVlan path dev mode w)) = kernel w).
Proof.
  intros Hlen Hok [ns Hp] [parent Hd]. split; intros mode.
  - unfold kndnet.addMacVlan, bind_wrap, netns.GetFromPath, LinkByName.
    rewrite Hp. simpl. rewrite Hok, Hd. simpl.
    rewrite LinkAdd_long_name; [split; reflexivity | exact Hok |].
    simpl. rewrite length_append. simpl. unfold IFNAMSIZ. lia.
  - unfold kndnet.addIPVlan, bind_wrap, netns.GetFromPath, LinkByName.
    rewrite Hp. simpl. rewrite Hok, Hd. simpl.
    rewrite LinkAdd_long_name; [split; reflexivity | exact Hok |].
    simpl. rewrite length_append. simpl. unfold IFNAMSIZ. lia.
Qed.

Lemma subinterface_name_too_long_witness :
  snd (kndnet.addMacVlan "/run/netns/pod-a" "enp0s31f6" MACVLAN_MODE_BRIDGE
         host_with_enp0s31f6) =
    Err ("failed to create the " +:+ ("mavlan-" +:+ "enp0s31f6") +:+ " macvlan interface: "
         +:+ ERANGE) /\
  kernel (fst (kndnet.addMacVlan "/run/netns/pod-a" "enp0s31f6" MACVLAN_MODE_BRIDGE
                 host_with_enp0s31f6)) = kernel host_with_enp0s31f6.
Proof.
  apply (proj1 (subinterface_name_too_long "/run/netns/pod-a" "enp0s31f6"
                  host_with_enp0s31f6 ltac:(vm_compute; lia) eq_refl
                  ltac:(vm_compute; eauto) ltac:(vm_compute; eauto))
           MACVLAN_MODE_BRIDGE).
Defined.
